(** * Hardpoint estimation and scene scaling of the ship-analysis scripts

    A shallow embedding of the geometric core of
    [scripts/analyze_model_geometry.py], [scripts/intelligent_hardpoint_finder.py],
    [scripts/simple_ship_analysis.py] and [scripts/debug_scaling.py].

    Numbers.  The scripts compute with Python floats and numpy float64
    arrays.  Coordinates are embedded as exact rationals [Q]: literals such
    as [0.2] or [142.672] stand for the decimal fractions written in the
    source, and [+], [-], [*], [/] are exact.  Rounding is not modelled
    there.  Comparisons are the boolean comparisons of [Q].  Where a
    statement turns on rounding, the scaling arithmetic is also given in
    IEEE binary64 ([Module Binary64], on the Standard Library's
    [spec_float]) and evaluated there.

    Arrays.  An [(n, 3)] vertex array is a [list Vec3]; boolean-mask
    indexing [a[mask]] is [filter], which keeps the order of the rows. *)

From Stdlib Require Import QArith Qabs Qround Lqa Lia List String Bool ZArith SpecFloat.
Import ListNotations.
Open Scope Q_scope.

(** ** Vectors and numpy reductions *)

Record Vec3 : Type := mkVec3 { vx : Q; vy : Q; vz : Q }.

(** Column index of the arrays: [v[0]], [v[1]], [v[2]]. *)
Inductive Axis : Type := AxisX | AxisY | AxisZ.

Definition coord (a : Axis) (v : Vec3) : Q :=
  match a with
  | AxisX => vx v
  | AxisY => vy v
  | AxisZ => vz v
  end.

Definition Qsum (l : list Q) : Q := fold_right Qplus 0 l.

(** [len(a)] as a number. *)
Definition Qlen {A : Type} (l : list A) : Q := inject_Z (Z.of_nat (List.length l)).

(** [np.mean(a)] of a one-dimensional array.  On an empty array numpy
    yields nan; the scripts guard every call by [len(a) > 0]. *)
Definition mean1 (l : list Q) : Q := Qsum l / Qlen l.

(** [np.mean(a, axis=0)] of an [(n, 3)] array: the column means. *)
Definition mean (l : list Vec3) : Vec3 :=
  mkVec3 (mean1 (map vx l)) (mean1 (map vy l)) (mean1 (map vz l)).

(** [a < b] and [a > b] on floats. *)
Definition Qltb (a b : Q) : bool := negb (Qle_bool b a).
Definition Qgtb (a b : Q) : bool := Qltb b a.

(** [a.min()] and [a.max()] of a one-dimensional array with first element
    [d]. *)
Definition Qminimum (d : Q) (l : list Q) : Q :=
  fold_left (fun m x => if Qltb x m then x else m) l d.
Definition Qmaximum (d : Q) (l : list Q) : Q :=
  fold_left (fun m x => if Qltb m x then x else m) l d.

Definition col_min (a : Axis) (l : list Vec3) : Q :=
  match l with
  | [] => 0
  | v :: r => Qminimum (coord a v) (map (coord a) r)
  end.
Definition col_max (a : Axis) (l : list Vec3) : Q :=
  match l with
  | [] => 0
  | v :: r => Qmaximum (coord a v) (map (coord a) r)
  end.

(** ** Meshes and hardpoints *)

(** The three attributes the scripts read from a [trimesh.Trimesh]:
    [mesh.vertices], [mesh.bounds] (a pair of corner points, [bounds[0]]
    the minimum corner and [bounds[1]] the maximum corner) and
    [mesh.centroid].  The last two are computed by the trimesh library; the
    functions below only read them, so they are fields of the input. *)
Record Mesh : Type := mkMesh {
  vertices : list Vec3;
  bounds : Vec3 * Vec3;
  centroid : Vec3
}.

(** [{'position': p, 'type': t}] *)
Record Weapon : Type := mkWeapon { w_position : Vec3; w_type : string }.

(** [{'position': p, 'type': t, 'scale': s}] *)
Record Engine : Type := mkEngine {
  e_position : Vec3; e_type : string; e_scale : Q
}.

(** [{'weapons': [...], 'engines': [...]}] *)
Record Hardpoints : Type := mkHardpoints {
  weapons : list Weapon;
  engines : list Engine
}.

(** ** [analyze_model_geometry.find_logical_hardpoints] *)

Module LogicalHardpoints.

Definition front_z (m : Mesh) : Q := vz (fst (bounds m)).
Definition rear_z (m : Mesh) : Q := vz (snd (bounds m)).
Definition center_z (m : Mesh) : Q := vz (centroid m).

(** [vertices[vertices[:, 2] < center_z - (rear_z - front_z) * 0.2]] *)
Definition front_region (m : Mesh) : list Vec3 :=
  filter (fun v => Qltb (vz v) (center_z m - (rear_z m - front_z m) * (2 # 10)))
         (vertices m).

(** [vertices[vertices[:, 2] > center_z + (rear_z - front_z) * 0.2]] *)
Definition rear_region (m : Mesh) : list Vec3 :=
  filter (fun v => Qgtb (vz v) (center_z m + (rear_z m - front_z m) * (2 # 10)))
         (vertices m).

Definition front_center (m : Mesh) : Vec3 := mean (front_region m).

(** [front_region[front_region[:, 0] < front_center[0] - 2]] *)
Definition front_left (m : Mesh) : list Vec3 :=
  filter (fun v => Qltb (vx v) (vx (front_center m) - 2)) (front_region m).

(** [front_region[front_region[:, 0] > front_center[0] + 2]] *)
Definition front_right (m : Mesh) : list Vec3 :=
  filter (fun v => Qgtb (vx v) (vx (front_center m) + 2)) (front_region m).

Definition rear_center (m : Mesh) : Vec3 := mean (rear_region m).

(** [rear_region[rear_region[:, 0] < rear_center[0] - 3]] *)
Definition rear_left (m : Mesh) : list Vec3 :=
  filter (fun v => Qltb (vx v) (vx (rear_center m) - 3)) (rear_region m).

(** [rear_region[rear_region[:, 0] > rear_center[0] + 3]] *)
Definition rear_right (m : Mesh) : list Vec3 :=
  filter (fun v => Qgtb (vx v) (vx (rear_center m) + 3)) (rear_region m).

(** The [if len(front_region) > 0:] block. *)
Definition find_weapons (m : Mesh) : list Weapon :=
  if (0 <? List.length (front_region m))%nat then
    if ((0 <? List.length (front_left m)) && (0 <? List.length (front_right m)))%nat
    then [ mkWeapon (mean (front_right m)) "cannon";
           mkWeapon (mean (front_left m)) "cannon" ]
    else [ mkWeapon (front_center m) "cannon" ]
  else [].

(** The [if len(rear_region) > 0:] block. *)
Definition find_engines (m : Mesh) : list Engine :=
  if (0 <? List.length (rear_region m))%nat then
    [ mkEngine (rear_center m) "main" 1 ]
    ++ (if ((5 <? List.length (rear_left m)) && (5 <? List.length (rear_right m)))%nat
        then [ mkEngine (mean (rear_right m)) "secondary" (7 # 10);
               mkEngine (mean (rear_left m)) "secondary" (7 # 10) ]
        else [])
  else [].

Definition find_logical_hardpoints (m : Mesh) : Hardpoints :=
  mkHardpoints (find_weapons m) (find_engines m).

End LogicalHardpoints.

(** ** Python exceptions *)

Inductive PyError : Type :=
| ZeroDivisionError
| UnboundLocalError.

Inductive Result (A : Type) : Type :=
| Ok (a : A)
| Raise (e : PyError).
Arguments Ok {A} a.
Arguments Raise {A} e.

Definition bind {A B : Type} (r : Result A) (k : A -> Result B) : Result B :=
  match r with
  | Ok a => k a
  | Raise e => Raise e
  end.

Notation "x <- r ;; k" := (bind r (fun x => k))
  (at level 61, r at next level, right associativity).

(** ** [intelligent_hardpoint_finder] *)

Module IntelligentFinder.

(** [a[a[:, c] == a[:, c].min()]] and its [max] twin; [a] is non-empty
    wherever the script evaluates them. *)
Definition extreme_min (c : Axis) (a : list Vec3) : list Vec3 :=
  filter (fun v => Qeq_bool (coord c v) (col_min c a)) a.
Definition extreme_max (c : Axis) (a : list Vec3) : list Vec3 :=
  filter (fun v => Qeq_bool (coord c v) (col_max c a)) a.

(** [vertices[vertices[:, 2] < -35]] *)
Definition front_section (vs : list Vec3) : list Vec3 :=
  filter (fun v => Qltb (vz v) (- (35))) vs.

(** [vertices[vertices[:, 2] > 35]] *)
Definition rear_section (vs : list Vec3) : list Vec3 :=
  filter (fun v => Qgtb (vz v) 35) vs.

(** [left_extreme[left_extreme[:, 2] == left_extreme[:, 2].min()][0]];
    the name stays unbound when the front section is empty. *)
Definition left_weapon (vs : list Vec3) : option Vec3 :=
  match front_section vs with
  | [] => None
  | fs => hd_error (extreme_min AxisZ (extreme_min AxisX fs))
  end.
Definition right_weapon (vs : list Vec3) : option Vec3 :=
  match front_section vs with
  | [] => None
  | fs => hd_error (extreme_min AxisZ (extreme_max AxisX fs))
  end.

(** [rear_section[rear_section[:, 2] == rear_section[:, 2].max()]] *)
Definition main_engine (vs : list Vec3) : list Vec3 :=
  extreme_max AxisZ (rear_section vs).

(** [np.mean(main_engine, axis=0)]; unbound when the rear section is
    empty. *)
Definition main_engine_center (vs : list Vec3) : option Vec3 :=
  match rear_section vs with
  | [] => None
  | _ => Some (mean (main_engine vs))
  end.

Definition rear_left (vs : list Vec3) (center : Vec3) : list Vec3 :=
  filter (fun v => Qltb (vx v) (vx center)) (rear_section vs).
Definition rear_right (vs : list Vec3) (center : Vec3) : list Vec3 :=
  filter (fun v => Qgtb (vx v) (vx center)) (rear_section vs).

(** [x if 'x' in locals() else [0,0,0]] where [x] is bound to the mean of
    [half] only under [len(rear_section) > 0] and [len(half) > 0]. *)
Definition secondary_or_origin (rear half : list Vec3) : Vec3 :=
  match rear, half with
  | _ :: _, _ :: _ => mean half
  | _, _ => mkVec3 0 0 0
  end.

Definition left_side (vs : list Vec3) (center : Vec3) : list Vec3 :=
  filter (fun v => Qltb (vx v) (vx center)) vs.
Definition right_side (vs : list Vec3) (center : Vec3) : list Vec3 :=
  filter (fun v => Qgtb (vx v) (vx center)) vs.

(** A use of a local name: [UnboundLocalError] when never assigned. *)
Definition local {A : Type} (o : option A) : Result A :=
  match o with
  | Some a => Ok a
  | None => Raise UnboundLocalError
  end.

(** [len(right_side)/len(left_side)] of the asymmetry report. *)
Definition asymmetry_ratio (vs : list Vec3) (center : Vec3) : Result Q :=
  match left_side vs center with
  | [] => Raise ZeroDivisionError
  | ls => Ok (Qlen (right_side vs center) / Qlen ls)
  end.

(** The dictionary entries keep their source order; ['pos'] is stored in
    the position field. *)
Definition analyze_starship_calypso (vs : list Vec3) (bnds : Vec3 * Vec3)
    (center : Vec3) : Result Hardpoints :=
  _ <- asymmetry_ratio vs center ;;
  lw <- local (left_weapon vs) ;;
  rw <- local (right_weapon vs) ;;
  mc <- local (main_engine_center vs) ;;
  Ok (mkHardpoints
        [ mkWeapon lw "left_cannon"; mkWeapon rw "right_cannon" ]
        [ mkEngine mc "main" 1;
          mkEngine (secondary_or_origin (rear_section vs) (rear_left vs center))
                   "left_secondary" (6 # 10);
          mkEngine (secondary_or_origin (rear_section vs) (rear_right vs center))
                   "right_secondary" (6 # 10) ]).

(** [vertices[vertices[:, 2] < center[2] - (bounds[1][2] - bounds[0][2]) * 0.25]] *)
Definition front_quarter (vs : list Vec3) (bnds : Vec3 * Vec3) (center : Vec3)
    : list Vec3 :=
  filter (fun v => Qltb (vz v) (vz center - (vz (snd bnds) - vz (fst bnds)) * (25 # 100))) vs.

(** [vertices[vertices[:, 2] > center[2] + (bounds[1][2] - bounds[0][2]) * 0.25]] *)
Definition rear_quarter (vs : list Vec3) (bnds : Vec3 * Vec3) (center : Vec3)
    : list Vec3 :=
  filter (fun v => Qgtb (vz v) (vz center + (vz (snd bnds) - vz (fst bnds)) * (25 # 100))) vs.

Definition analyze_generic_ship (vs : list Vec3) (bnds : Vec3 * Vec3)
    (center : Vec3) : Hardpoints :=
  mkHardpoints
    (if (0 <? List.length (front_quarter vs bnds center))%nat
     then [ mkWeapon (mean (front_quarter vs bnds center)) "forward_cannon" ]
     else [])
    (if (0 <? List.length (rear_quarter vs bnds center))%nat
     then [ mkEngine (mean (rear_quarter vs bnds center)) "main" 1 ]
     else []).

End IntelligentFinder.

(** ** [simple_ship_analysis.analyze_based_on_description] *)

Module SimpleAnalysis.

(** Ascending sort of a float array. *)
Fixpoint insert_sorted (x : Q) (l : list Q) : list Q :=
  match l with
  | [] => [x]
  | y :: r => if Qle_bool x y then x :: l else y :: insert_sorted x r
  end.
Definition sort (l : list Q) : list Q := fold_right insert_sorted [] l.

(** [np.percentile(a, q)] with numpy's default linear interpolation: the
    virtual index [(n - 1) * q / 100] into the sorted array, interpolating
    between its two neighbours.  The script calls it on non-empty arrays
    only. *)
Definition np_percentile (a : list Q) (q : Q) : Q :=
  let s := sort a in
  let idx := Qlen a * (q / 100) - (q / 100) in
  let lo := Z.to_nat (Qfloor idx) in
  let hi := Nat.min (S lo) (List.length a - 1) in
  let g := idx - inject_Z (Qfloor idx) in
  nth lo s 0 + (nth hi s 0 - nth lo s 0) * g.

Section WingWeapons.

(** The percentile routine of the array library. *)
Variable percentile : list Q -> Q -> Q.

(** [dimensions = bounds[1] - bounds[0]] *)
Definition dimensions (m : Mesh) : Vec3 :=
  mkVec3 (vx (snd (bounds m)) - vx (fst (bounds m)))
         (vy (snd (bounds m)) - vy (fst (bounds m)))
         (vz (snd (bounds m)) - vz (fst (bounds m))).

(** [bounds[0][0] + dimensions[0] * 0.75] *)
Definition aft_threshold (m : Mesh) : Q :=
  vx (fst (bounds m)) + vx (dimensions m) * (75 # 100).

(** [vertices[vertices[:, 0] > aft_threshold]] *)
Definition aft_vertices (m : Mesh) : list Vec3 :=
  filter (fun v => Qgtb (vx v) (aft_threshold m)) (vertices m).

(** [aft_vertices[aft_vertices[:, 2] < np.percentile(aft_vertices[:, 2], 30)]] *)
Definition left_wing_verts (m : Mesh) : list Vec3 :=
  filter (fun v => Qltb (vz v) (percentile (map vz (aft_vertices m)) 30))
         (aft_vertices m).

(** [aft_vertices[aft_vertices[:, 2] > np.percentile(aft_vertices[:, 2], 70)]] *)
Definition right_wing_verts (m : Mesh) : list Vec3 :=
  filter (fun v => Qgtb (vz v) (percentile (map vz (aft_vertices m)) 70))
         (aft_vertices m).

(** [[pos[0] - 10, pos[1] - 10, pos[2]]]: the weapon is put under the
    wing. *)
Definition under_wing (pos : Vec3) : Vec3 :=
  mkVec3 (vx pos - 10) (vy pos - 10) (vz pos).

(** The weapon positions the Starship_Calypso branch computes and reports,
    [left_weapon] first and then [right_weapon]; a wing without vertices
    reports none. *)
Definition wing_weapons (m : Mesh) : list Vec3 :=
  if (0 <? List.length (aft_vertices m))%nat then
    (if (0 <? List.length (left_wing_verts m))%nat
     then [ under_wing (mean (left_wing_verts m)) ]
     else [])
    ++
    (if (0 <? List.length (right_wing_verts m))%nat
     then [ under_wing (mean (right_wing_verts m)) ]
     else [])
  else [].

End WingWeapons.

End SimpleAnalysis.

(** ** [debug_scaling.analyze_ship_scaling] *)

Module Scaling.

(** One entry of the [ships] dictionary, with the fields the scaling reads. *)
Record ShipConfig : Type := mkShipConfig {
  native_length : Q;
  desired_length : Q;
  weapon_hardpoints : list Weapon;
  engine_positions : list Engine
}.

(** [config['desired_length'] / config['native_length']]: Python raises
    [ZeroDivisionError] on a zero divisor. *)
Definition model_scale (desired native : Q) : Result Q :=
  if Qeq_bool native 0 then Raise ZeroDivisionError else Ok (desired / native).

(** [scaled_x = p['x'] * model_scale] and likewise for y and z. *)
Definition scaled (p : Vec3) (s : Q) : Vec3 :=
  mkVec3 (vx p * s) (vy p * s) (vz p * s).

Record SceneUnits : Type := mkSceneUnits {
  modelScale : Q;
  scenePosition : Vec3;
  sceneEffectScale : Q
}.

(** The body of the per-ship loop for one hardpoint: the model scale, the
    scaled position and [effect_scale = scale * model_scale * 5]. *)
Definition toSceneUnits (nativeLength desiredLength : Q) (nativePosition : Vec3)
    (nativeEffectScale : Q) : Result SceneUnits :=
  s <- model_scale desiredLength nativeLength ;;
  Ok (mkSceneUnits s (scaled nativePosition s) (nativeEffectScale * s * 5)).

(** The scaled weapon hardpoints of one ship, in list order. *)
Definition scaled_weapons (c : ShipConfig) : Result (list Vec3) :=
  s <- model_scale (desired_length c) (native_length c) ;;
  Ok (map (fun w => scaled (w_position w) s) (weapon_hardpoints c)).

(** The literal ['Starship_Calypso'] entry. *)
Definition Starship_Calypso : ShipConfig :=
  mkShipConfig (142672 # 1000) 20
    [ mkWeapon (mkVec3 (236 # 10) 15 (- (665 # 10))) "cannon";
      mkWeapon (mkVec3 (- (236 # 10)) 15 (- (665 # 10))) "cannon" ]
    [ mkEngine (mkVec3 0 0 (662 # 10)) "main" 1;
      mkEngine (mkVec3 (354 # 10) 0 (612 # 10)) "secondary" (7 # 10) ].

End Scaling.

(** ** The mesh object as a call receives it *)

Module Loaded.

(** [mesh.bounds] of a trimesh object is [None] when the mesh has no
    referenced vertex, and the pair of corners otherwise. *)
Record TrimeshObject : Type := mkObject {
  obj_vertices : list Vec3;
  obj_bounds : option (Vec3 * Vec3);
  obj_centroid : Vec3
}.

(** A call returns, or stops with the [TypeError] of subscripting [None]. *)
Inductive Call (A : Type) : Type :=
| Returns (a : A)
| TypeError.
Arguments Returns {A} a.
Arguments TypeError {A}.

(** [find_logical_hardpoints(mesh, model_name)]: the first subscript of
    [bounds] is [front_z = bounds[0][2]]; nothing else on the path can
    fail. *)
Definition find_logical_hardpoints (o : TrimeshObject) : Call Hardpoints :=
  match obj_bounds o with
  | None => TypeError
  | Some b =>
      Returns (LogicalHardpoints.find_logical_hardpoints
                 (mkMesh (obj_vertices o) b (obj_centroid o)))
  end.

(** [analyze_generic_ship(vertices, bounds, center)] subscripts
    [bounds[1][2]] in its first statement. *)
Definition analyze_generic_ship (o : TrimeshObject) : Call Hardpoints :=
  match obj_bounds o with
  | None => TypeError
  | Some b =>
      Returns (IntelligentFinder.analyze_generic_ship
                 (obj_vertices o) b (obj_centroid o))
  end.

(** The object of a mesh whose bounds are defined. *)
Definition of_mesh (m : Mesh) : TrimeshObject :=
  mkObject (vertices m) (Some (bounds m)) (centroid m).

End Loaded.

(** ** The scaling arithmetic in IEEE binary64 *)

Module Binary64.

(** Python floats are binary64: 53 bits of precision, exponent bound 1024. *)
Definition float : Type := spec_float.

(** An integer as a float, rounded to nearest even when it needs more
    than 53 bits. *)
Definition of_Z (z : Z) : float := binary_normalize 53 1024 z 0 false.

Definition mul : float -> float -> float := SFmul 53 1024.
Definition div : float -> float -> float := SFdiv 53 1024.
Definition eqb : float -> float -> bool := SFeqb.

(** The decimal literal [n / 10^k] written in the source: the float
    nearest to the fraction, which is what the correctly rounded quotient
    of the two integers gives. *)
Definition decimal (n d : Z) : float := div (of_Z n) (of_Z d).

(** [a / b] in Python: [ZeroDivisionError] when [b == 0.0]. *)
Definition model_scale (desired native : float) : Result float :=
  if eqb native (of_Z 0) then Raise ZeroDivisionError else Ok (div desired native).

(** [scaled_x = p['x'] * model_scale], and y and z alike, on the three
    coordinates of a native position. *)
Definition scaled (p : float * float * float) (s : float) : float * float * float :=
  let '(x, y, z) := p in (mul x s, mul y s, mul z s).



End Binary64.

(** ** Notions the claims are stated with *)

(** The axis-aligned bounding volume of a vertex set: on every axis,
    between the least and the greatest coordinate of the vertices. *)
Definition in_bounding_volume (vs : list Vec3) (p : Vec3) : Prop :=
  forall a : Axis, col_min a vs <= coord a p /\ coord a p <= col_max a vs.

(** Pointwise equality of positions up to the value of the fractions. *)
Definition Veq (p q : Vec3) : Prop :=
  vx p == vx q /\ vy p == vy q /\ vz p == vz q.

(** A split of a region exactly at its own mean lateral coordinate, with
    nothing left out between the halves.  This is not what the scripts
    compute; it is the split their dead zone is compared with. *)
Definition exact_left_half (region : list Vec3) : list Vec3 :=
  filter (fun v => Qltb (vx v) (vx (mean region))) region.
Definition exact_right_half (region : list Vec3) : list Vec3 :=
  filter (fun v => Qgtb (vx v) (vx (mean region))) region.

(** A position that is [np.mean] of a non-empty boolean-mask selection
    [vs[mask]] of the vertex array [vs]. *)
Definition mean_of_selection (vs : list Vec3) (p : Vec3) : Prop :=
  exists mask : Vec3 -> bool, filter mask vs <> [] /\ p = mean (filter mask vs).

(** The centre of a triangle and the square of twice its area (the squared
    length of the cross product of two edges): trimesh takes the centroid
    of a mesh as the average of the triangle centres weighted by the
    triangle areas. *)
Definition triangle_center (a b c : Vec3) : Vec3 := mean [a; b; c].

Definition double_area_squared (a b c : Vec3) : Q :=
  let ux := vx b - vx a in let uy := vy b - vy a in let uz := vz b - vz a in
  let wx := vx c - vx a in let wy := vy c - vy a in let wz := vz c - vz a in
  let nx := uy * wz - uz * wy in
  let ny := uz * wx - ux * wz in
  let nz := ux * wy - uy * wx in
  nx * nx + ny * ny + nz * nz.

(** The average of centres weighted by areas. *)
Definition weighted_center (faces : list (Q * Vec3)) : Vec3 :=
  let total := Qsum (map fst faces) in
  mkVec3 (Qsum (map (fun f => fst f * vx (snd f)) faces) / total)
         (Qsum (map (fun f => fst f * vy (snd f)) faces) / total)
         (Qsum (map (fun f => fst f * vz (snd f)) faces) / total).

(** [a] equals [b] within the tolerance [tol]. *)
Definition within (tol a b : Q) : Prop := Qabs (a - b) <= tol.

(** ** Concrete inputs used by the examples below *)

(** Four vertices, the last three in the aft quarter of the x range. *)
Definition wing_mesh : Mesh :=
  mkMesh [ mkVec3 0 5 0; mkVec3 80 0 (-5); mkVec3 90 0 0; mkVec3 100 0 5 ]
         (mkVec3 0 0 (-5), mkVec3 100 5 5)
         (mkVec3 (675 # 10) (125 # 100) 0).

(** A mesh 20 units long in z whose rear region holds two vertices, at
    z = 8 and z = 10. *)
Definition aft_mesh : Mesh :=
  mkMesh [ mkVec3 (-1) 0 (-10); mkVec3 1 0 0; mkVec3 0 1 8; mkVec3 0 (-1) 10 ]
         (mkVec3 (-1) (-1) (-10), mkVec3 1 1 10)
         (mkVec3 0 0 0).

(** Vertices for [analyze_starship_calypso]: one ahead of z = -35, two
    behind z = 35 of which one is the rearmost.  They span one triangle,
    whose centre is its centroid. *)
Definition calypso_vertices : list Vec3 :=
  [ mkVec3 (-5) 0 (-40); mkVec3 5 2 40; mkVec3 (-3) 4 50 ].
Definition calypso_bounds : Vec3 * Vec3 :=
  (mkVec3 (-5) 0 (-40), mkVec3 5 4 50).
Definition calypso_center : Vec3 := mkVec3 (-1) 2 (50 # 3).

(** A flat hull with a fin.  Two triangles share the vertex at the origin:
    the hull (0,0,0), (30,0,0), (0,40,0) of area 600 in the plane z = 0, and
    the fin (0,0,0), (0,1,0), (0,0,10) of area 5.  The centroid is the
    area-weighted average of the two triangle centres, which puts it at
    z = 10/363, close to the plane of the hull: no vertex lies below
    [center_z - 0.2 * 10], so the front region is empty. *)
Definition fin_mesh : Mesh :=
  mkMesh [ mkVec3 0 0 0; mkVec3 30 0 0; mkVec3 0 40 0; mkVec3 0 1 0; mkVec3 0 0 10 ]
         (mkVec3 0 0 0, mkVec3 30 40 10)
         (mkVec3 (1200 # 121) (4801 # 363) (10 # 363)).

(** A mesh of zero extent: every vertex is the same point. *)
Definition point_mesh : Mesh :=
  mkMesh [ mkVec3 1 2 3; mkVec3 1 2 3; mkVec3 1 2 3 ]
         (mkVec3 1 2 3, mkVec3 1 2 3)
         (mkVec3 1 2 3).

(** Two front vertices 3 units either side of x = 0 and twelve rear
    vertices, six on each side at 4 units from x = 0. *)
Definition twin_mesh : Mesh :=
  mkMesh ([ mkVec3 (-3) 0 (-10); mkVec3 3 0 (-10); mkVec3 0 0 0 ]
          ++ map (fun k => mkVec3 (-4) (inject_Z k) 10) [0; 1; 2; 3; 4; 5]%Z
          ++ map (fun k => mkVec3 4 (inject_Z k) 10) [0; 1; 2; 3; 4; 5]%Z)
         (mkVec3 (-4) 0 (-10), mkVec3 4 5 10)
         (mkVec3 0 2 0).

(** Front and rear vertices 1 unit either side of x = 0. *)
Definition narrow_mesh : Mesh :=
  mkMesh [ mkVec3 (-1) 0 (-10); mkVec3 1 0 (-10); mkVec3 0 0 0;
           mkVec3 (-1) 0 10; mkVec3 1 0 10 ]
         (mkVec3 (-1) 0 (-10), mkVec3 1 0 10)
         (mkVec3 0 0 0).

(** A flat strip in the plane y = 0, four vertices across at each end;
    by symmetry its centroid is the origin.  The front region holds the four
    vertices at x = -3, -1, 1, 3. *)
Definition comb_mesh : Mesh :=
  mkMesh [ mkVec3 (-3) 0 (-10); mkVec3 (-1) 0 (-10); mkVec3 1 0 (-10); mkVec3 3 0 (-10);
           mkVec3 (-3) 0 10; mkVec3 (-1) 0 10; mkVec3 1 0 10; mkVec3 3 0 10 ]
         (mkVec3 (-3) 0 (-10), mkVec3 3 0 10)
         (mkVec3 0 0 0).

(** A narrow box, 2 wide and 1 high, with three rings of vertices at each
    end; by symmetry its centroid is the centre of the box.  The rear region
    holds twelve vertices, six at x = -1 and six at x = 1. *)
Definition band_mesh : Mesh :=
  mkMesh (flat_map (fun z => [ mkVec3 (-1) 0 z; mkVec3 (-1) 1 z;
                               mkVec3 1 0 z; mkVec3 1 1 z ])
                   [ -(10); -(9); -(8); 8; 9; 10 ])
         (mkVec3 (-1) 0 (-10), mkVec3 1 1 10)
         (mkVec3 0 (1 # 2) 0).


(** * Further functions of the scripts *)

(** ** [intelligent_hardpoint_finder]: the fighter and the dispatch *)

Module Finder.

Import IntelligentFinder.

(** What a call may raise: one of the Python errors above, or numpy's
    [ValueError] for [min] or [max] of a zero-size array. *)
Inductive Raised : Type :=
| Python (e : PyError)
| ValueError.

Inductive Run (A : Type) : Type :=
| Done (a : A)
| Fails (e : Raised).
Arguments Done {A} a.
Arguments Fails {A} e.

Definition of_result {A : Type} (r : Result A) : Run A :=
  match r with
  | Ok a => Done a
  | Raise e => Fails (Python e)
  end.

(** [vertices[vertices[:, 2] == vertices[:, 2].min()]] *)
Definition front_point (vs : list Vec3) : list Vec3 := extreme_min AxisZ vs.

(** [vertices[vertices[:, 2] == vertices[:, 2].max()]] *)
Definition rear_point (vs : list Vec3) : list Vec3 := extreme_max AxisZ vs.

(** [analyze_sky_predator]: the nose weapon is the mean of the vertices
    with the least z, the engine the mean of those with the greatest z.
    [vertices[:, 2].min()] raises on an array without rows. *)
Definition analyze_sky_predator (vs : list Vec3) (bnds : Vec3 * Vec3)
    (center : Vec3) : Run Hardpoints :=
  match vs with
  | [] => Fails ValueError
  | _ :: _ =>
      Done (mkHardpoints
              [ mkWeapon (mean (front_point vs)) "nose_cannon" ]
              [ mkEngine (mean (rear_point vs)) "main" 1 ])
  end.

(** The dispatch at the end of [find_intelligent_hardpoints], on the
    already loaded mesh. *)
Definition find_intelligent_hardpoints (m : Mesh) (model_name : string)
    : Run Hardpoints :=
  if String.eqb model_name "Starship_Calypso" then
    of_result (analyze_starship_calypso (vertices m) (bounds m) (centroid m))
  else if String.eqb model_name "Sky_Predator" then
    analyze_sky_predator (vertices m) (bounds m) (centroid m)
  else
    Done (analyze_generic_ship (vertices m) (bounds m) (centroid m)).

End Finder.

(** ** [analyze_model_geometry]: sections and cross-sections *)

Module GeometryReport.

(** [vertices[vertices[:, 2] < center[2] - (bounds[1][2] - bounds[0][2]) * 0.3]] *)
Definition front_vertices (m : Mesh) : list Vec3 :=
  filter (fun v => Qltb (vz v)
                     (vz (centroid m)
                      - (vz (snd (bounds m)) - vz (fst (bounds m))) * (3 # 10)))
         (vertices m).

(** [vertices[vertices[:, 2] > center[2] + (bounds[1][2] - bounds[0][2]) * 0.3]] *)
Definition rear_vertices (m : Mesh) : list Vec3 :=
  filter (fun v => Qgtb (vz v)
                     (vz (centroid m)
                      + (vz (snd (bounds m)) - vz (fst (bounds m))) * (3 # 10)))
         (vertices m).

(** [np.linspace(start, stop, 10)]: nine equal steps from [start], the
    last sample being [stop] itself. *)
Definition linspace10 (start stop : Q) : list Q :=
  map (fun i => inject_Z i * ((stop - start) / 9) + start)
      [0; 1; 2; 3; 4; 5; 6; 7; 8]%Z
  ++ [stop].

(** [z_positions = np.linspace(bounds[0][2], bounds[1][2], 10)] *)
Definition z_positions (m : Mesh) : list Q :=
  linspace10 (vz (fst (bounds m))) (vz (snd (bounds m))).

(** [tolerance = (bounds[1][2] - bounds[0][2]) * 0.05] *)
Definition tolerance (m : Mesh) : Q :=
  (vz (snd (bounds m)) - vz (fst (bounds m))) * (5 # 100).

(** [vertices[np.abs(vertices[:, 2] - z) < tolerance]] *)
Definition slice_vertices (m : Mesh) (z : Q) : list Vec3 :=
  filter (fun v => Qltb (Qabs (vz v - z)) (tolerance m)) (vertices m).

(** One entry of [cross_sections]. *)
Record CrossSection : Type := mkCrossSection {
  cs_z : Q;
  cs_vertices : nat;
  cs_x_range : Q;
  cs_y_range : Q
}.

(** The loop over [z_positions]: a slice with at least one vertex is
    recorded with its vertex count and its x and y ranges. *)
Definition cross_section_at (m : Mesh) (z : Q) : list CrossSection :=
  let s := slice_vertices m z in
  if (0 <? List.length s)%nat
  then [ mkCrossSection z (List.length s)
           (col_max AxisX s - col_min AxisX s)
           (col_max AxisY s - col_min AxisY s) ]
  else [].

Definition cross_sections (m : Mesh) : list CrossSection :=
  flat_map (cross_section_at m) (z_positions m).

End GeometryReport.

(** ** [simple_ship_analysis]: the engine exhausts *)

Module SimpleEngines.

Import SimpleAnalysis.

(** [bounds[1][0] - dimensions[0] * 0.05] *)
Definition rear_threshold (m : Mesh) : Q :=
  vx (snd (bounds m)) - vx (dimensions m) * (5 # 100).

(** [vertices[vertices[:, 0] > rear_threshold]] *)
Definition rear_vertices (m : Mesh) : list Vec3 :=
  filter (fun v => Qgtb (vx v) (rear_threshold m)) (vertices m).

(** [rear_vertices[np.abs(z_positions) < 20]] *)
Definition center_engines (m : Mesh) : list Vec3 :=
  filter (fun v => Qltb (Qabs (vz v)) 20) (rear_vertices m).

(** [rear_vertices[z_positions < -20]] *)
Definition left_engines (m : Mesh) : list Vec3 :=
  filter (fun v => Qltb (vz v) (- (20))) (rear_vertices m).

(** [rear_vertices[z_positions > 20]] *)
Definition right_engines (m : Mesh) : list Vec3 :=
  filter (fun v => Qgtb (vz v) 20) (rear_vertices m).

(** The engines the branch reports: each cluster with at least one vertex
    gives its mean, and nothing is reported unless more than 100 vertices
    lie behind the rear threshold. *)
Record EngineReport : Type := mkEngineReport {
  main_engine : option Vec3;
  left_engine : option Vec3;
  right_engine : option Vec3
}.

Definition cluster_mean (cluster : list Vec3) : option Vec3 :=
  if (0 <? List.length cluster)%nat then Some (mean cluster) else None.

Definition engine_analysis (m : Mesh) : EngineReport :=
  if (100 <? List.length (rear_vertices m))%nat
  then mkEngineReport (cluster_mean (center_engines m))
                      (cluster_mean (left_engines m))
                      (cluster_mean (right_engines m))
  else mkEngineReport None None None.

End SimpleEngines.

(** ** Notions the further properties are stated with *)

(** A list of positions in increasing order with at least [g] between any
    two of them. *)
Fixpoint gapped (g : Q) (zs : list Q) : Prop :=
  match zs with
  | [] => True
  | z :: rest => (forall z', In z' rest -> z + g <= z') /\ gapped g rest
  end.

(** A larger mesh: 101 vertices in the rearmost 5 percent of the x range,
    spread over z from -50 to 50, and one vertex at the front. *)
Definition exhaust_mesh : Mesh :=
  mkMesh (mkVec3 0 0 0
          :: map (fun k => mkVec3 100 0 (inject_Z k)) (map (fun n => Z.of_nat n - 50)%Z (List.seq 0 101)))
         (mkVec3 0 0 (-50), mkVec3 100 0 50)
         (mkVec3 99 0 0).

(** The membership test of a slice, [np.abs(v[2] - z) < tol], and the
    number of sampled positions [zs] whose slice a vertex falls into. *)
Definition near (tol : Q) (z : Q) (v : Vec3) : bool := Qltb (Qabs (vz v - z)) tol.

Definition hits (P : Q -> Vec3 -> bool) (zs : list Q) (v : Vec3) : nat :=
  list_sum (map (fun z => if P z v then 1%nat else 0%nat) zs).
(** * Properties *)

(** ** Comparisons, sums and means *)

Lemma Qltb_lt (a b : Q) : Qltb a b = true <-> a < b.
Proof.
  unfold Qltb. rewrite negb_true_iff. split; intro H.
  - apply Qnot_le_lt. intro L. apply Qle_bool_iff in L. congruence.
  - destruct (Qle_bool b a) eqn:E; [|reflexivity].
    apply Qle_bool_iff in E. exfalso. exact (Qlt_not_le _ _ H E).
Qed.

Lemma Qltb_ge (a b : Q) : Qltb a b = false <-> b <= a.
Proof.
  unfold Qltb. rewrite negb_false_iff. apply Qle_bool_iff.
Qed.

Lemma Qgtb_gt (a b : Q) : Qgtb a b = true <-> b < a.
Proof. apply Qltb_lt. Qed.

Lemma Qlen_pos {A : Type} (l : list A) : l <> [] -> 0 < Qlen l.
Proof.
  intro H. destruct l as [|x r]; [congruence|].
  unfold Qlen, Qlt. simpl. lia.
Qed.

Lemma Qlen_cons {A : Type} (x : A) (l : list A) : Qlen (x :: l) == 1 + Qlen l.
Proof.
  unfold Qlen. cbn [List.length]. rewrite Nat2Z.inj_succ, <- Z.add_1_l.
  rewrite inject_Z_plus. reflexivity.
Qed.

Lemma Qsum_lower (lo : Q) (l : list Q) :
  (forall x, In x l -> lo <= x) -> lo * Qlen l <= Qsum l.
Proof.
  induction l as [|y r IH]; intro H.
  - unfold Qlen. simpl. change (inject_Z 0) with 0. lra.
  - rewrite Qlen_cons. cbn [Qsum fold_right].
    assert (lo <= y) by (apply H; left; reflexivity).
    assert (lo * Qlen r <= Qsum r) by (apply IH; intros; apply H; right; assumption).
    unfold Qsum in *. lra.
Qed.

Lemma Qsum_upper (hi : Q) (l : list Q) :
  (forall x, In x l -> x <= hi) -> Qsum l <= hi * Qlen l.
Proof.
  induction l as [|y r IH]; intro H.
  - unfold Qlen. simpl. change (inject_Z 0) with 0. lra.
  - rewrite Qlen_cons. cbn [Qsum fold_right].
    assert (y <= hi) by (apply H; left; reflexivity).
    assert (Qsum r <= hi * Qlen r) by (apply IH; intros; apply H; right; assumption).
    unfold Qsum in *. lra.
Qed.

Lemma mean1_lower (lo : Q) (l : list Q) :
  l <> [] -> (forall x, In x l -> lo <= x) -> lo <= mean1 l.
Proof.
  intros Hne H. unfold mean1.
  apply Qle_shift_div_l; [apply Qlen_pos; assumption|].
  apply Qsum_lower; assumption.
Qed.

Lemma mean1_upper (hi : Q) (l : list Q) :
  l <> [] -> (forall x, In x l -> x <= hi) -> mean1 l <= hi.
Proof.
  intros Hne H. unfold mean1.
  apply Qle_shift_div_r; [apply Qlen_pos; assumption|].
  apply Qsum_upper; assumption.
Qed.

Lemma coord_mean (a : Axis) (l : list Vec3) :
  coord a (mean l) = mean1 (map (coord a) l).
Proof. destruct a; reflexivity. Qed.

(** ** Least and greatest coordinate *)

Lemma Qminimum_le_start (l : list Q) (d : Q) : Qminimum d l <= d.
Proof.
  unfold Qminimum. revert d. induction l as [|y r IH]; intro d; simpl.
  - apply Qle_refl.
  - destruct (Qltb y d) eqn:E.
    + apply Qltb_lt in E. eapply Qle_trans; [apply IH|]. apply Qlt_le_weak, E.
    + apply IH.
Qed.

Lemma Qminimum_lower (l : list Q) (d x : Q) : In x l -> Qminimum d l <= x.
Proof.
  unfold Qminimum. revert d. induction l as [|y r IH]; intros d H; simpl.
  - destruct H.
  - destruct H as [-> | H]; [|apply IH, H].
    destruct (Qltb x d) eqn:E.
    + apply (Qminimum_le_start r x).
    + apply Qltb_ge in E. eapply Qle_trans; [apply (Qminimum_le_start r d)|exact E].
Qed.

Lemma Qmaximum_ge_start (l : list Q) (d : Q) : d <= Qmaximum d l.
Proof.
  unfold Qmaximum. revert d. induction l as [|y r IH]; intro d; simpl.
  - apply Qle_refl.
  - destruct (Qltb d y) eqn:E.
    + apply Qltb_lt in E. eapply Qle_trans; [|apply IH]. apply Qlt_le_weak, E.
    + apply IH.
Qed.

Lemma Qmaximum_upper (l : list Q) (d x : Q) : In x l -> x <= Qmaximum d l.
Proof.
  unfold Qmaximum. revert d. induction l as [|y r IH]; intros d H; simpl.
  - destruct H.
  - destruct H as [-> | H]; [|apply IH, H].
    destruct (Qltb d x) eqn:E.
    + apply (Qmaximum_ge_start r x).
    + apply Qltb_ge in E. eapply Qle_trans; [exact E|apply (Qmaximum_ge_start r d)].
Qed.

Lemma Qmaximum_attained (l : list Q) (d : Q) : In (Qmaximum d l) (d :: l).
Proof.
  unfold Qmaximum. revert d. induction l as [|y r IH]; intro d; simpl.
  - left. reflexivity.
  - destruct (Qltb d y).
    + right. apply IH.
    + destruct (IH d) as [H | H]; [left; exact H | right; right; exact H].
Qed.

Lemma Qminimum_attained (l : list Q) (d : Q) : In (Qminimum d l) (d :: l).
Proof.
  unfold Qminimum. revert d. induction l as [|y r IH]; intro d; simpl.
  - left. reflexivity.
  - destruct (Qltb y d).
    + right. apply IH.
    + destruct (IH d) as [H | H]; [left; exact H | right; right; exact H].
Qed.

Lemma col_min_le (a : Axis) (vs : list Vec3) (v : Vec3) :
  In v vs -> col_min a vs <= coord a v.
Proof.
  destruct vs as [|u r]; intro H; [destruct H|].
  cbn [col_min]. destruct H as [-> | H].
  - apply Qminimum_le_start.
  - apply Qminimum_lower. apply in_map, H.
Qed.

Lemma col_max_ge (a : Axis) (vs : list Vec3) (v : Vec3) :
  In v vs -> coord a v <= col_max a vs.
Proof.
  destruct vs as [|u r]; intro H; [destruct H|].
  cbn [col_max]. destruct H as [-> | H].
  - apply Qmaximum_ge_start.
  - apply Qmaximum_upper. apply in_map, H.
Qed.

Lemma filter_incl_self {A : Type} (f : A -> bool) (l : list A) : incl (filter f l) l.
Proof. intros x H. apply filter_In in H. tauto. Qed.

Lemma length_pos_ne {A : Type} (l : list A) :
  (0 <? List.length l)%nat = true -> l <> [].
Proof. destruct l; [discriminate|discriminate]. Qed.

Lemma ne_length_pos {A : Type} (l : list A) :
  l <> [] -> (0 <? List.length l)%nat = true.
Proof. destruct l; [congruence|reflexivity]. Qed.

(** ** Positions drawn from the mesh *)

Section PositionsFromMesh.

Import LogicalHardpoints.

Lemma filter_twice {A : Type} (f g : A -> bool) (l : list A) :
  filter g (filter f l) = filter (fun x => f x && g x) l.
Proof.
  induction l as [|x r IH]; [reflexivity|].
  cbn [filter]. destruct (f x); cbn [filter andb]; rewrite IH; reflexivity.
Qed.

(** A position taken as the mean of a non-empty selection, and of a
    non-empty selection within a selection. *)
Lemma mean_of_mask (f : Vec3 -> bool) (vs : list Vec3) :
  filter f vs <> [] -> mean_of_selection vs (mean (filter f vs)).
Proof. intro H. exists f. split; [exact H | reflexivity]. Qed.

Lemma mean_of_mask_twice (f g : Vec3 -> bool) (vs : list Vec3) :
  filter g (filter f vs) <> [] -> mean_of_selection vs (mean (filter g (filter f vs))).
Proof.
  intro H. rewrite filter_twice in *. apply mean_of_mask, H.
Qed.

Lemma find_weapons_from_mesh (m : Mesh) :
  Forall (fun w => mean_of_selection (vertices m) (w_position w)) (find_weapons m).
Proof.
  unfold find_weapons.
  destruct (0 <? List.length (front_region m))%nat eqn:Ef; [|constructor].
  apply length_pos_ne in Ef.
  destruct ((0 <? List.length (front_left m)) && (0 <? List.length (front_right m)))%nat eqn:Es.
  - apply andb_true_iff in Es. destruct Es as [El Er].
    apply length_pos_ne in El. apply length_pos_ne in Er.
    apply Forall_cons; [|apply Forall_cons; [|apply Forall_nil]]; cbn [w_position].
    + apply mean_of_mask_twice, Er.
    + apply mean_of_mask_twice, El.
  - apply Forall_cons; [|apply Forall_nil]; cbn [w_position].
    apply mean_of_mask, Ef.
Qed.

Lemma find_engines_from_mesh (m : Mesh) :
  Forall (fun e => mean_of_selection (vertices m) (e_position e)) (find_engines m).
Proof.
  unfold find_engines.
  destruct (0 <? List.length (rear_region m))%nat eqn:Er; [|constructor].
  apply length_pos_ne in Er.
  apply Forall_app. split.
  - apply Forall_cons; [|apply Forall_nil]; cbn [e_position].
    apply mean_of_mask, Er.
  - destruct ((5 <? List.length (rear_left m)) && (5 <? List.length (rear_right m)))%nat eqn:Es;
      [|constructor].
    apply andb_true_iff in Es. destruct Es as [El Eg].
    assert (Hl : rear_left m <> []) by (destruct (rear_left m); [discriminate|discriminate]).
    assert (Hg : rear_right m <> []) by (destruct (rear_right m); [discriminate|discriminate]).
    apply Forall_cons; [|apply Forall_cons; [|apply Forall_nil]]; cbn [e_position].
    + apply mean_of_mask_twice, Hg.
    + apply mean_of_mask_twice, Hl.
Qed.

Lemma wing_weapons_from_mesh (percentile : list Q -> Q -> Q) (m : Mesh) :
  Forall (fun w => exists pos, mean_of_selection (vertices m) pos
                               /\ w = SimpleAnalysis.under_wing pos)
         (SimpleAnalysis.wing_weapons percentile m).
Proof.
  unfold SimpleAnalysis.wing_weapons.
  destruct (0 <? List.length (SimpleAnalysis.aft_vertices m))%nat; [|constructor].
  apply Forall_app. split.
  - destruct (0 <? List.length (SimpleAnalysis.left_wing_verts percentile m))%nat eqn:E;
      [|constructor].
    apply length_pos_ne in E. apply Forall_cons; [|apply Forall_nil].
    eexists. split; [|reflexivity]. apply mean_of_mask_twice, E.
  - destruct (0 <? List.length (SimpleAnalysis.right_wing_verts percentile m))%nat eqn:E;
      [|constructor].
    apply length_pos_ne in E. apply Forall_cons; [|apply Forall_nil].
    eexists. split; [|reflexivity]. apply mean_of_mask_twice, E.
Qed.

(** C1, as the code has it.  Every weapon and engine position returned by
    [find_logical_hardpoints] is [np.mean] of a non-empty boolean-mask
    selection of the mesh's own vertices: no position is extrapolated from
    outside the vertex set.  Every wing weapon of
    [analyze_based_on_description] is such a mean moved by 10 units down
    the x axis and 10 units down the y axis, and so can lie outside the
    bounding volume. *)
Theorem C1_positions_from_the_mesh (m : Mesh) :
  Forall (fun w => mean_of_selection (vertices m) (w_position w))
         (weapons (find_logical_hardpoints m))
  /\ Forall (fun e => mean_of_selection (vertices m) (e_position e))
            (engines (find_logical_hardpoints m))
  /\ forall percentile,
       Forall (fun w => exists pos,
                   mean_of_selection (vertices m) pos
                   /\ w = mkVec3 (vx pos - 10) (vy pos - 10) (vz pos))
              (SimpleAnalysis.wing_weapons percentile m).
Proof.
  split; [apply find_weapons_from_mesh|].
  split; [apply find_engines_from_mesh|].
  intro percentile. apply wing_weapons_from_mesh.
Qed.

(** The lists the statement speaks of are not always empty: on [twin_mesh]
    two weapons and three engines are returned, and [wing_mesh] has two wing
    weapons. *)
Example twin_mesh_hardpoints_from_the_mesh :
  List.length (weapons (find_logical_hardpoints twin_mesh)) = 2%nat
  /\ List.length (engines (find_logical_hardpoints twin_mesh)) = 3%nat
  /\ List.length (SimpleAnalysis.wing_weapons SimpleAnalysis.np_percentile wing_mesh)
     = 2%nat.
Proof. vm_compute. repeat split. Qed.

(** C1 refuted as stated: on [wing_mesh] the left wing weapon of
    [analyze_based_on_description] sits at y = -10, below the least y
    coordinate (0) of the mesh. *)
Lemma C1_wing_weapon_outside_volume :
  In (mkVec3 70 (-10) (-5))
     (SimpleAnalysis.wing_weapons SimpleAnalysis.np_percentile wing_mesh)
  /\ ~ in_bounding_volume (vertices wing_mesh) (mkVec3 70 (-10) (-5)).
Proof.
  split.
  - vm_compute. left. reflexivity.
  - intro H. destruct (H AxisY) as [L _]. vm_compute in L. apply L. reflexivity.
Qed.

End PositionsFromMesh.

(** ** The main engine *)

Section MainEngine.

Lemma mean1_const (c : Q) (l : list Q) :
  l <> [] -> (forall x, In x l -> x == c) -> mean1 l == c.
Proof.
  intros Hne H. apply Qle_antisym.
  - apply mean1_upper; [exact Hne|]. intros x Hx. rewrite (H x Hx). apply Qle_refl.
  - apply mean1_lower; [exact Hne|]. intros x Hx. rewrite (H x Hx). apply Qle_refl.
Qed.

Lemma mean_singleton (v : Vec3) : Veq (mean [v]) v.
Proof.
  unfold Veq, mean, mean1, Qsum, Qlen. simpl.
  change (inject_Z 1) with 1. repeat split; field.
Qed.

Lemma col_max_attained (a : Axis) (vs : list Vec3) :
  vs <> [] -> exists v, In v vs /\ coord a v = col_max a vs.
Proof.
  destruct vs as [|u r]; [congruence|]. intros _. cbn [col_max].
  destruct (Qmaximum_attained (map (coord a) r) (coord a u)) as [H | H].
  - exists u. split; [left; reflexivity | exact H].
  - apply in_map_iff in H. destruct H as [v [Hv Hin]].
    exists v. split; [right; exact Hin | exact Hv].
Qed.

Lemma extreme_max_nonempty (a : Axis) (vs : list Vec3) :
  vs <> [] -> IntelligentFinder.extreme_max a vs <> [].
Proof.
  intros Hne. destruct (col_max_attained a vs Hne) as [v [Hin Hv]].
  assert (Hf : In v (IntelligentFinder.extreme_max a vs)).
  { apply filter_In. split; [exact Hin|]. rewrite Hv. apply Qeq_bool_refl. }
  intro E. rewrite E in Hf. destruct Hf.
Qed.

Lemma col_min_attained (a : Axis) (vs : list Vec3) :
  vs <> [] -> exists v, In v vs /\ coord a v = col_min a vs.
Proof.
  destruct vs as [|u r]; [congruence|]. intros _. cbn [col_min].
  destruct (Qminimum_attained (map (coord a) r) (coord a u)) as [H | H].
  - exists u. split; [left; reflexivity | exact H].
  - apply in_map_iff in H. destruct H as [v [Hv Hin]].
    exists v. split; [right; exact Hin | exact Hv].
Qed.

Lemma extreme_min_nonempty (a : Axis) (vs : list Vec3) :
  vs <> [] -> IntelligentFinder.extreme_min a vs <> [].
Proof.
  intros Hne. destruct (col_min_attained a vs Hne) as [v [Hin Hv]].
  assert (Hf : In v (IntelligentFinder.extreme_min a vs)).
  { apply filter_In. split; [exact Hin|]. rewrite Hv. apply Qeq_bool_refl. }
  intro E. rewrite E in Hf. destruct Hf.
Qed.

Lemma hd_error_nonempty {A : Type} (l : list A) :
  l <> [] -> exists x, hd_error l = Some x.
Proof. destruct l as [|x r]; [congruence|]. intros _. exists x. reflexivity. Qed.

Import IntelligentFinder.

Lemma main_engine_rearmost (vs : list Vec3) :
  rear_section vs <> [] ->
  main_engine vs <> []
  /\ vz (mean (main_engine vs)) == col_max AxisZ (rear_section vs).
Proof.
  intro Hne.
  assert (Hm : main_engine vs <> []) by (apply extreme_max_nonempty, Hne).
  split; [exact Hm|].
  change (vz (mean (main_engine vs))) with (coord AxisZ (mean (main_engine vs))).
  rewrite coord_mean. apply mean1_const.
  - destruct (main_engine vs); [congruence|discriminate].
  - intros x Hx. apply in_map_iff in Hx. destruct Hx as [v [<- Hv]].
    apply filter_In in Hv. destruct Hv as [_ Hv].
    apply Qeq_bool_iff in Hv. exact Hv.
Qed.

Lemma local_weapons_bound (vs : list Vec3) :
  front_section vs <> [] ->
  exists lw rw, left_weapon vs = Some lw /\ right_weapon vs = Some rw.
Proof.
  intro Hne. unfold left_weapon, right_weapon.
  destruct (front_section vs) as [|u r] eqn:E; [congruence|].
  destruct (hd_error_nonempty (extreme_min AxisZ (extreme_min AxisX (u :: r)))) as [lw Hl].
  { apply extreme_min_nonempty, extreme_min_nonempty. discriminate. }
  destruct (hd_error_nonempty (extreme_min AxisZ (extreme_max AxisX (u :: r)))) as [rw Hr].
  { apply extreme_min_nonempty, extreme_max_nonempty. discriminate. }
  exists lw, rw. split; assumption.
Qed.

(** C2, as the code has it.  In [find_logical_hardpoints] a non-empty rear
    region yields the "main" engine first, at the mean position of the whole
    rear region, with scale 1; every further engine is "secondary".  In
    [analyze_starship_calypso], when the front section, the rear section
    and the left side are all non-empty, the call returns, and its first
    engine is "main" with scale 1 at the mean of the rear-section vertices
    that attain the greatest z: its z coordinate is that greatest z, and it
    is the rearmost vertex itself when a single vertex attains it. *)
Theorem C2_main_engine_position :
  (forall m : Mesh,
      LogicalHardpoints.rear_region m <> [] ->
      exists rest,
        engines (LogicalHardpoints.find_logical_hardpoints m)
        = mkEngine (mean (LogicalHardpoints.rear_region m)) "main" 1 :: rest
        /\ Forall (fun e => e_type e = "secondary"%string) rest)
  /\ (forall (vs : list Vec3) (bnds : Vec3 * Vec3) (center : Vec3),
        front_section vs <> [] ->
        rear_section vs <> [] ->
        left_side vs center <> [] ->
        exists h rest,
          analyze_starship_calypso vs bnds center = Ok h
          /\ engines h = mkEngine (mean (main_engine vs)) "main" 1 :: rest
          /\ Forall (fun e => e_type e <> "main"%string) rest
          /\ vz (mean (main_engine vs)) == col_max AxisZ (rear_section vs)
          /\ (forall v, main_engine vs = [v] -> Veq (mean (main_engine vs)) v)).
Proof.
  split.
  - intros m Hne. cbn [LogicalHardpoints.find_logical_hardpoints engines].
    unfold LogicalHardpoints.find_engines.
    rewrite (ne_length_pos _ Hne). cbn [app].
    eexists. split; [reflexivity|].
    destruct ((5 <? List.length (LogicalHardpoints.rear_left m))
              && (5 <? List.length (LogicalHardpoints.rear_right m)))%nat.
    + apply Forall_cons; [reflexivity|]. apply Forall_cons; [reflexivity|]. apply Forall_nil.
    + apply Forall_nil.
  - intros vs bnds center Hf Hr Hl.
    destruct (local_weapons_bound vs Hf) as [lw [rw [Elw Erw]]].
    destruct (main_engine_rearmost vs Hr) as [_ Hz].
    unfold analyze_starship_calypso, asymmetry_ratio, main_engine_center.
    rewrite Elw, Erw.
    destruct (left_side vs center) as [|l0 lr]; [congruence|].
    destruct (rear_section vs) as [|r0 rr] eqn:Er; [congruence|].
    cbn [bind local].
    eexists. eexists. split; [reflexivity|]. cbn [engines].
    split; [reflexivity|].
    split.
    { apply Forall_cons; [discriminate|]. apply Forall_cons; [discriminate|]. apply Forall_nil. }
    split.
    { exact Hz. }
    intros v Hv. rewrite Hv. apply mean_singleton.
Qed.

Lemma C2_main_engine_position_witness :
  (exists rest,
      engines (LogicalHardpoints.find_logical_hardpoints aft_mesh)
      = mkEngine (mean (LogicalHardpoints.rear_region aft_mesh)) "main" 1 :: rest
      /\ Forall (fun e => e_type e = "secondary"%string) rest)
  /\ (exists h rest,
        analyze_starship_calypso calypso_vertices calypso_bounds calypso_center = Ok h
        /\ engines h = mkEngine (mean (main_engine calypso_vertices)) "main" 1 :: rest
        /\ Forall (fun e => e_type e <> "main"%string) rest
        /\ vz (mean (main_engine calypso_vertices))
           == col_max AxisZ (rear_section calypso_vertices)
        /\ (forall v, main_engine calypso_vertices = [v] ->
                      Veq (mean (main_engine calypso_vertices)) v)).
Proof.
  split.
  - apply (proj1 C2_main_engine_position aft_mesh). vm_compute. discriminate.
  - apply (proj2 C2_main_engine_position calypso_vertices calypso_bounds calypso_center);
      vm_compute; discriminate.
Defined.

(** C2 refuted as stated: on [aft_mesh] the rear region holds the vertices
    (0, 1, 8) and (0, -1, 10); the only engine returned is "main" at their
    mean (0, 0, 9), which is no vertex of the region and lies short of the
    rearmost z = 10. *)
Lemma C2_main_engine_is_an_average :
  exists e,
    engines (LogicalHardpoints.find_logical_hardpoints aft_mesh) = [e]
    /\ e_type e = "main"%string
    /\ Veq (e_position e) (mkVec3 0 0 9)
    /\ LogicalHardpoints.rear_region aft_mesh = [ mkVec3 0 1 8; mkVec3 0 (-1) 10 ]
    /\ ~ vz (e_position e) == col_max AxisZ (LogicalHardpoints.rear_region aft_mesh)
    /\ Forall (fun v => ~ Veq (e_position e) v) (LogicalHardpoints.rear_region aft_mesh).
Proof.
  eexists. split; [vm_compute; reflexivity|].
  split; [reflexivity|].
  split; [vm_compute; repeat split; reflexivity|].
  split; [vm_compute; reflexivity|].
  split; [vm_compute; discriminate|].
  apply Forall_forall. intros v Hv [_ [_ Hz]].
  vm_compute in Hv. destruct Hv as [<- | [<- | []]]; vm_compute in Hz; discriminate.
Qed.

End MainEngine.

(** ** Scene units *)

Section SceneUnits.

Import Scaling.

(** C3, with the figures the code produces.  For [native_length = 142.672]
    and [desired_length = 20] the model scale is [20 / 142.672], which is
    0.14018 to five decimals, and the weapon at native (23.6, 15.0, -66.5)
    is scaled to (3.308, 2.103, -9.322) within 0.001 on each coordinate. *)
Theorem C3_calypso_scene_position :
  exists s p rest,
    model_scale (desired_length Starship_Calypso) (native_length Starship_Calypso) = Ok s
    /\ s == 20 / (142672 # 1000)
    /\ within (5 # 1000000) s (14018 # 100000)
    /\ scaled_weapons Starship_Calypso = Ok (p :: rest)
    /\ p = scaled (mkVec3 (236 # 10) 15 (- (665 # 10))) s
    /\ within (1 # 1000) (vx p) (3308 # 1000)
    /\ within (1 # 1000) (vy p) (2103 # 1000)
    /\ within (1 # 1000) (vz p) (- (9322 # 1000)).
Proof.
  do 3 eexists.
  split; [vm_compute; reflexivity|].
  split; [vm_compute; reflexivity|].
  split; [vm_compute; discriminate|].
  split; [vm_compute; reflexivity|].
  split; [vm_compute; reflexivity|].
  repeat split; vm_compute; discriminate.
Qed.

(** C3 refuted as stated: the model scale [20 / 142.672] differs from
    0.14022 by more than 0.00003, and the scaled weapon position misses
    3.310 on x and -9.325 on z by more than the tolerance 0.001. *)
Lemma C3_stated_figures_out_of_tolerance :
  exists s p rest,
    model_scale 20 (142672 # 1000) = Ok s
    /\ scaled_weapons Starship_Calypso = Ok (p :: rest)
    /\ p = scaled (mkVec3 (236 # 10) 15 (- (665 # 10))) s
    /\ ~ within (3 # 100000) s (14022 # 100000)
    /\ ~ within (1 # 1000) (vx p) (3310 # 1000)
    /\ ~ within (1 # 1000) (vz p) (- (9325 # 1000)).
Proof.
  do 3 eexists.
  split; [vm_compute; reflexivity|].
  split; [vm_compute; reflexivity|].
  split; [vm_compute; reflexivity|].
  repeat split; intro H; vm_compute in H; apply H; reflexivity.
Qed.

Lemma model_scale_zero (d n : Q) :
  n == 0 -> model_scale d n = Raise ZeroDivisionError.
Proof.
  intro H. unfold model_scale. apply Qeq_bool_iff in H. rewrite H. reflexivity.
Qed.

Lemma model_scale_nonzero (d n : Q) :
  ~ n == 0 -> model_scale d n = Ok (d / n).
Proof.
  intro H. unfold model_scale.
  destruct (Qeq_bool n 0) eqn:E; [|reflexivity].
  apply Qeq_bool_iff in E. contradiction.
Qed.

(** C4.  [toSceneUnits] raises [ZeroDivisionError] exactly when the native
    length is zero; for every other native length it returns the model
    scale [desiredLength / nativeLength] and the native position multiplied
    by that one scale on each of the three axes. *)
Theorem C4_scale_or_division_error (nativeLength desiredLength : Q)
    (nativePosition : Vec3) (nativeEffectScale : Q) :
  (toSceneUnits nativeLength desiredLength nativePosition nativeEffectScale
   = Raise ZeroDivisionError <-> nativeLength == 0)
  /\ (~ nativeLength == 0 ->
      exists r,
        toSceneUnits nativeLength desiredLength nativePosition nativeEffectScale = Ok r
        /\ modelScale r = desiredLength / nativeLength
        /\ scenePosition r
           = mkVec3 (vx nativePosition * modelScale r)
                    (vy nativePosition * modelScale r)
                    (vz nativePosition * modelScale r)).
Proof.
  unfold toSceneUnits. split; [split|].
  - intro H. destruct (Qeq_dec nativeLength 0) as [E | E]; [exact E|].
    rewrite (model_scale_nonzero _ _ E) in H. discriminate.
  - intro E. rewrite (model_scale_zero _ _ E). reflexivity.
  - intro E. rewrite (model_scale_nonzero _ _ E). cbn [bind].
    eexists. split; [reflexivity|]. split; reflexivity.
Qed.

Lemma C4_scale_or_division_error_witness :
  (toSceneUnits 0 20 (mkVec3 (236 # 10) 15 (- (665 # 10))) 1
   = Raise ZeroDivisionError <-> 0 == 0)
  /\ exists r,
       toSceneUnits (142672 # 1000) 20 (mkVec3 (236 # 10) 15 (- (665 # 10))) 1 = Ok r
       /\ modelScale r = 20 / (142672 # 1000)
       /\ scenePosition r
          = mkVec3 ((236 # 10) * modelScale r) (15 * modelScale r)
                   (- (665 # 10) * modelScale r).
Proof.
  split.
  - apply (proj1 (C4_scale_or_division_error 0 20 (mkVec3 (236 # 10) 15 (- (665 # 10))) 1)).
  - apply (proj2 (C4_scale_or_division_error (142672 # 1000) 20
                    (mkVec3 (236 # 10) 15 (- (665 # 10))) 1)).
    vm_compute. discriminate.
Defined.




(** The binary64 literals are the floats Python reads: 142.672 is
    [0x1.1d5810624dd2fp+7], and the model scale [20 / 142.672] is
    0.14018167545138499. *)
Example binary64_literals :
  Binary64.decimal 142672 1000 = S754_finite false 5019824734657839 (-45)
  /\ Binary64.model_scale (Binary64.of_Z 20) (Binary64.decimal 142672 1000)
     = Ok (S754_finite false 5050577130616234 (-55))
  /\ Binary64.model_scale (Binary64.of_Z 20) (Binary64.of_Z 0) = Raise ZeroDivisionError.
Proof. vm_compute. repeat split. Qed.

End SceneUnits.

(** ** The lateral split *)

Section LateralSplit.

Import LogicalHardpoints.

Lemma filter_none {A : Type} (f : A -> bool) (l : list A) :
  (forall x, In x l -> f x = false) -> filter f l = [].
Proof.
  induction l as [|y r IH]; intro H; [reflexivity|].
  cbn [filter]. rewrite (H y (or_introl eq_refl)).
  apply IH. intros x Hx. apply H. right. exact Hx.
Qed.

Lemma filter_nil_none {A : Type} (f : A -> bool) (l : list A) :
  filter f l = [] -> forall x, In x l -> f x = false.
Proof.
  intros E x Hx. destruct (f x) eqn:Efx; [|reflexivity].
  assert (Hin : In x (filter f l)) by (apply filter_In; split; assumption).
  rewrite E in Hin. destruct Hin.
Qed.

(** C6, as the code has it.  The front region is not split at its mean:
    with [mx] the mean x of a non-empty front region, the left selection is
    the front-region vertices with [x < mx - 2] and the right selection
    those with [x > mx + 2]; vertices within 2 units of the mean belong to
    neither.  When both selections are non-empty, exactly two weapons are
    returned, the mean of the right selection and then the mean of the left
    selection; when either is empty, exactly one weapon is returned, at the
    mean of the whole front region. *)
Theorem C6_weapons_beyond_dead_zone (m : Mesh) :
  let front :=
    filter (fun v => Qltb (vz v)
                       (vz (centroid m)
                        - (vz (snd (bounds m)) - vz (fst (bounds m))) * (2 # 10)))
           (vertices m) in
  let left := filter (fun v => Qltb (vx v) (vx (mean front) - 2)) front in
  let right := filter (fun v => Qgtb (vx v) (vx (mean front) + 2)) front in
  front <> [] ->
  (left <> [] -> right <> [] ->
   weapons (find_logical_hardpoints m)
   = [ mkWeapon (mean right) "cannon"; mkWeapon (mean left) "cannon" ])
  /\ (left = [] \/ right = [] ->
      weapons (find_logical_hardpoints m) = [ mkWeapon (mean front) "cannon" ]).
Proof.
  intros front left right Hne.
  change front with (front_region m) in *.
  change left with (front_left m). change right with (front_right m).
  cbn [find_logical_hardpoints weapons]. unfold find_weapons.
  rewrite (ne_length_pos _ Hne). split.
  - intros Hl Hr. rewrite (ne_length_pos _ Hl), (ne_length_pos _ Hr). reflexivity.
  - intros [E | E]; rewrite E; cbn [List.length Nat.ltb Nat.leb andb];
      [reflexivity | rewrite andb_false_r; reflexivity].
Qed.

Lemma C6_weapons_beyond_dead_zone_witness :
  weapons (find_logical_hardpoints twin_mesh)
  = [ mkWeapon (mean (front_right twin_mesh)) "cannon";
      mkWeapon (mean (front_left twin_mesh)) "cannon" ]
  /\ weapons (find_logical_hardpoints narrow_mesh)
     = [ mkWeapon (mean (front_region narrow_mesh)) "cannon" ].
Proof.
  split.
  - apply (proj1 (C6_weapons_beyond_dead_zone twin_mesh ltac:(vm_compute; discriminate)));
      vm_compute; discriminate.
  - apply (proj2 (C6_weapons_beyond_dead_zone narrow_mesh ltac:(vm_compute; discriminate))).
    left. vm_compute. reflexivity.
Defined.

(** On [twin_mesh] two weapons are returned, the right one at x = 3
    first. *)
Example twin_mesh_weapons :
  map (fun w => Qred (vx (w_position w))) (weapons (find_logical_hardpoints twin_mesh))
  = [ 3; -3 ].
Proof. vm_compute. reflexivity. Qed.

(** C6 refuted as stated.  On [narrow_mesh] both halves of the front region
    around its mean x = 0 are non-empty (x = -1 and x = 1), yet a single
    weapon is returned.  On [comb_mesh] the halves around the mean x = 0 are
    {-3, -1} and {1, 3} with means -2 and 2, but the two weapons returned
    sit at x = 3 and x = -3. *)
Lemma C6_halves_around_the_mean_differ :
  (exact_left_half (front_region narrow_mesh) <> []
   /\ exact_right_half (front_region narrow_mesh) <> []
   /\ List.length (weapons (find_logical_hardpoints narrow_mesh)) = 1%nat)
  /\ (vx (mean (exact_left_half (front_region comb_mesh))) == - (2)
      /\ vx (mean (exact_right_half (front_region comb_mesh))) == 2
      /\ map (fun w => Qred (vx (w_position w)))
             (weapons (find_logical_hardpoints comb_mesh)) = [ 3; -3 ]).
Proof.
  split.
  - split; [vm_compute; discriminate|]. split; [vm_compute; discriminate|].
    vm_compute. reflexivity.
  - split; [vm_compute; reflexivity|]. split; vm_compute; reflexivity.
Qed.

(** C7, as the code has it.  With [mx] the mean x of a non-empty rear
    region, the left selection is the rear-region vertices with
    [x < mx - 3] and the right selection those with [x > mx + 3].  The first
    engine is always "main", at the mean of the rear region, with scale 1.
    When both selections hold more than 5 vertices, exactly two "secondary"
    engines of scale 0.7 follow, at the mean of the right and then of the
    left selection; when either holds at most 5 vertices, and in particular
    when the rear region holds at most 5 vertices, the main engine is
    returned alone. *)
Theorem C7_secondary_engines_beyond_dead_zone (m : Mesh) :
  let rear :=
    filter (fun v => Qgtb (vz v)
                       (vz (centroid m)
                        + (vz (snd (bounds m)) - vz (fst (bounds m))) * (2 # 10)))
           (vertices m) in
  let left := filter (fun v => Qltb (vx v) (vx (mean rear) - 3)) rear in
  let right := filter (fun v => Qgtb (vx v) (vx (mean rear) + 3)) rear in
  rear <> [] ->
  ((5 < List.length left)%nat -> (5 < List.length right)%nat ->
   engines (find_logical_hardpoints m)
   = [ mkEngine (mean rear) "main" 1;
       mkEngine (mean right) "secondary" (7 # 10);
       mkEngine (mean left) "secondary" (7 # 10) ])
  /\ ((List.length left <= 5)%nat \/ (List.length right <= 5)%nat ->
      engines (find_logical_hardpoints m) = [ mkEngine (mean rear) "main" 1 ])
  /\ ((List.length rear <= 5)%nat ->
      engines (find_logical_hardpoints m) = [ mkEngine (mean rear) "main" 1 ]).
Proof.
  intros rear left right Hne.
  change rear with (rear_region m) in *.
  change left with (rear_left m). change right with (rear_right m).
  cbn [find_logical_hardpoints engines]. unfold find_engines.
  rewrite (ne_length_pos _ Hne).
  assert (One : (List.length (rear_left m) <= 5)%nat \/ (List.length (rear_right m) <= 5)%nat ->
                [ mkEngine (rear_center m) "main" 1 ]
                ++ (if ((5 <? List.length (rear_left m))
                        && (5 <? List.length (rear_right m)))%nat
                    then [ mkEngine (mean (rear_right m)) "secondary" (7 # 10);
                           mkEngine (mean (rear_left m)) "secondary" (7 # 10) ]
                    else [])
                = [ mkEngine (mean (rear_region m)) "main" 1 ]).
  { intros [H | H]; apply Nat.ltb_ge in H; rewrite H;
      [reflexivity | rewrite andb_false_r; reflexivity]. }
  split; [|split].
  - intros Hl Hr. apply Nat.ltb_lt in Hl. apply Nat.ltb_lt in Hr.
    rewrite Hl, Hr. reflexivity.
  - exact One.
  - intro Hle. apply One. left.
    eapply Nat.le_trans; [apply filter_length_le | exact Hle].
Qed.

Lemma C7_secondary_engines_beyond_dead_zone_witness :
  engines (find_logical_hardpoints twin_mesh)
  = [ mkEngine (mean (rear_region twin_mesh)) "main" 1;
      mkEngine (mean (rear_right twin_mesh)) "secondary" (7 # 10);
      mkEngine (mean (rear_left twin_mesh)) "secondary" (7 # 10) ]
  /\ engines (find_logical_hardpoints band_mesh)
     = [ mkEngine (mean (rear_region band_mesh)) "main" 1 ]
  /\ engines (find_logical_hardpoints aft_mesh)
     = [ mkEngine (mean (rear_region aft_mesh)) "main" 1 ].
Proof.
  split; [|split].
  - apply (proj1 (C7_secondary_engines_beyond_dead_zone twin_mesh
                    ltac:(vm_compute; discriminate)));
      vm_compute; lia.
  - apply (proj1 (proj2 (C7_secondary_engines_beyond_dead_zone band_mesh
                           ltac:(vm_compute; discriminate)))).
    left. vm_compute. lia.
  - apply (proj2 (proj2 (C7_secondary_engines_beyond_dead_zone aft_mesh
                           ltac:(vm_compute; discriminate)))).
    vm_compute. lia.
Defined.

(** C7 refuted as stated.  The rear region of [band_mesh] holds twelve
    vertices, six at x = -1 and six at x = 1: both halves around the mean
    x = 0 exceed the threshold of 5 vertices, yet the main engine is
    returned alone, because no vertex lies more than 3 units from the
    mean. *)
Lemma C7_halves_exceed_threshold_without_secondaries :
  List.length (rear_region band_mesh) = 12%nat
  /\ List.length (exact_left_half (rear_region band_mesh)) = 6%nat
  /\ List.length (exact_right_half (rear_region band_mesh)) = 6%nat
  /\ map e_type (engines (find_logical_hardpoints band_mesh)) = [ "main"%string ].
Proof. vm_compute. repeat split. Qed.

(** *** The dead zone *)

Lemma Qsum_lower_strict (lo : Q) (l : list Q) :
  (forall x, In x l -> lo <= x) -> (exists x, In x l /\ lo < x) ->
  lo * Qlen l < Qsum l.
Proof.
  induction l as [|y r IH]; intros H [x [Hx Hlt]]; [destruct Hx|].
  rewrite Qlen_cons. cbn [Qsum fold_right].
  assert (Hy : lo <= y) by (apply H; left; reflexivity).
  assert (Hr : forall z, In z r -> lo <= z) by (intros; apply H; right; assumption).
  destruct Hx as [-> | Hx].
  - pose proof (Qsum_lower lo r Hr) as Hs. unfold Qsum in *. lra.
  - assert (Hs : lo * Qlen r < Qsum r) by (apply IH; [exact Hr | exists x; tauto]).
    unfold Qsum in *. lra.
Qed.

Lemma Qsum_upper_strict (hi : Q) (l : list Q) :
  (forall x, In x l -> x <= hi) -> (exists x, In x l /\ x < hi) ->
  Qsum l < hi * Qlen l.
Proof.
  induction l as [|y r IH]; intros H [x [Hx Hlt]]; [destruct Hx|].
  rewrite Qlen_cons. cbn [Qsum fold_right].
  assert (Hy : y <= hi) by (apply H; left; reflexivity).
  assert (Hr : forall z, In z r -> z <= hi) by (intros; apply H; right; assumption).
  destruct Hx as [-> | Hx].
  - pose proof (Qsum_upper hi r Hr) as Hs. unfold Qsum in *. lra.
  - assert (Hs : Qsum r < hi * Qlen r) by (apply IH; [exact Hr | exists x; tauto]).
    unfold Qsum in *. lra.
Qed.




Lemma In_nonempty {A : Type} (l : list A) (x : A) : In x l -> l <> [].
Proof. intros H E. rewrite E in H. destruct H. Qed.



(** On [narrow_mesh] the single weapon sits at x = 0, between the two front
    vertices at x = -1 and x = 1. *)
Example narrow_mesh_weapons :
  map (fun w => Qred (vx (w_position w))) (weapons (find_logical_hardpoints narrow_mesh))
  = [ 0 ].
Proof. vm_compute. reflexivity. Qed.


End LateralSplit.

(** ** Failure behaviour *)

Section Failures.

Import LogicalHardpoints.

Lemma find_weapons_empty_iff (m : Mesh) :
  find_weapons m = [] <-> front_region m = [].
Proof.
  unfold find_weapons. split.
  - destruct (0 <? List.length (front_region m))%nat eqn:Ef.
    + destruct ((0 <? List.length (front_left m)) && (0 <? List.length (front_right m)))%nat;
        discriminate.
    + intros _. destruct (front_region m); [reflexivity | discriminate Ef].
  - intro E. rewrite E. reflexivity.
Qed.

Lemma find_engines_empty_iff (m : Mesh) :
  find_engines m = [] <-> rear_region m = [].
Proof.
  unfold find_engines. split.
  - destruct (0 <? List.length (rear_region m))%nat eqn:Er.
    + discriminate.
    + intros _. destruct (rear_region m); [reflexivity | discriminate Er].
  - intro E. rewrite E. reflexivity.
Qed.

Lemma filter_nil_iff {A : Type} (f : A -> bool) (l : list A) :
  filter f l = [] <-> forall x, In x l -> f x = false.
Proof. split; [apply filter_nil_none | apply filter_none]. Qed.

Lemma none_below_iff (c : Q) (vs : list Vec3) :
  filter (fun v => Qltb (vz v) c) vs = [] <-> forall v, In v vs -> c <= vz v.
Proof.
  rewrite filter_nil_iff. split; intros H v Hv; apply Qltb_ge, H, Hv.
Qed.

Lemma none_above_iff (c : Q) (vs : list Vec3) :
  filter (fun v => Qgtb (vz v) c) vs = [] <-> forall v, In v vs -> vz v <= c.
Proof.
  rewrite filter_nil_iff. split; intros H v Hv; apply Qltb_ge, H, Hv.
Qed.

Lemma generic_weapons_empty_iff (vs : list Vec3) (b : Vec3 * Vec3) (c : Vec3) :
  weapons (IntelligentFinder.analyze_generic_ship vs b c) = []
  <-> IntelligentFinder.front_quarter vs b c = [].
Proof.
  unfold IntelligentFinder.analyze_generic_ship. cbn [weapons].
  destruct (IntelligentFinder.front_quarter vs b c); simpl; split;
    (reflexivity || discriminate).
Qed.

Lemma generic_engines_empty_iff (vs : list Vec3) (b : Vec3 * Vec3) (c : Vec3) :
  engines (IntelligentFinder.analyze_generic_ship vs b c) = []
  <-> IntelligentFinder.rear_quarter vs b c = [].
Proof.
  unfold IntelligentFinder.analyze_generic_ship. cbn [engines].
  destruct (IntelligentFinder.rear_quarter vs b c); simpl; split;
    (reflexivity || discriminate).
Qed.

(** C5, as the code has it.  No script defines [InvalidMeshError] or
    [EmptyRegionError].  On a mesh object without bounds ([mesh.bounds] is
    [None]: no referenced vertex) [find_logical_hardpoints] and
    [analyze_generic_ship] stop with a [TypeError] at their first subscript
    of [bounds].  On every other mesh object they return a result, and a
    region that selects no vertex is skipped silently: the result has no
    weapon exactly when no vertex lies ahead of the front threshold and no
    engine exactly when no vertex lies behind the rear threshold (0.2 of the
    z extent from the centroid for [find_logical_hardpoints], 0.25 for
    [analyze_generic_ship]).  For a mesh of zero z extent whose vertices
    and centroid lie within its bounds, both results are empty. *)
Theorem C5_empty_regions_are_skipped (o : Loaded.TrimeshObject) :
  (Loaded.obj_bounds o = None ->
   Loaded.find_logical_hardpoints o = Loaded.TypeError
   /\ Loaded.analyze_generic_ship o = Loaded.TypeError)
  /\ (forall lo hi : Vec3,
        Loaded.obj_bounds o = Some (lo, hi) ->
        exists h g,
          Loaded.find_logical_hardpoints o = Loaded.Returns h
          /\ Loaded.analyze_generic_ship o = Loaded.Returns g
          /\ (weapons h = []
              <-> forall v, In v (Loaded.obj_vertices o) ->
                    vz (Loaded.obj_centroid o) - (vz hi - vz lo) * (2 # 10) <= vz v)
          /\ (engines h = []
              <-> forall v, In v (Loaded.obj_vertices o) ->
                    vz v <= vz (Loaded.obj_centroid o) + (vz hi - vz lo) * (2 # 10))
          /\ (weapons g = []
              <-> forall v, In v (Loaded.obj_vertices o) ->
                    vz (Loaded.obj_centroid o) - (vz hi - vz lo) * (25 # 100) <= vz v)
          /\ (engines g = []
              <-> forall v, In v (Loaded.obj_vertices o) ->
                    vz v <= vz (Loaded.obj_centroid o) + (vz hi - vz lo) * (25 # 100))
          /\ (vz lo == vz hi ->
              (forall v, In v (Loaded.obj_vertices o) -> vz lo <= vz v /\ vz v <= vz hi) ->
              vz lo <= vz (Loaded.obj_centroid o) /\ vz (Loaded.obj_centroid o) <= vz hi ->
              weapons h = [] /\ engines h = [] /\ weapons g = [] /\ engines g = [])).
Proof.
  unfold Loaded.find_logical_hardpoints, Loaded.analyze_generic_ship. split.
  - intro E. rewrite E. split; reflexivity.
  - intros lo hi E. rewrite E. do 2 eexists.
    split; [reflexivity|]. split; [reflexivity|].
    cbn [find_logical_hardpoints weapons engines].
    assert (Wh := find_weapons_empty_iff
                    (mkMesh (Loaded.obj_vertices o) (lo, hi) (Loaded.obj_centroid o))).
    assert (Eh := find_engines_empty_iff
                    (mkMesh (Loaded.obj_vertices o) (lo, hi) (Loaded.obj_centroid o))).
    assert (Wg := generic_weapons_empty_iff (Loaded.obj_vertices o) (lo, hi)
                    (Loaded.obj_centroid o)).
    assert (Eg := generic_engines_empty_iff (Loaded.obj_vertices o) (lo, hi)
                    (Loaded.obj_centroid o)).
    unfold front_region, rear_region, center_z, rear_z, front_z in Wh, Eh.
    unfold IntelligentFinder.front_quarter in Wg. unfold IntelligentFinder.rear_quarter in Eg.
    cbn [vertices bounds centroid fst snd] in Wh, Eh, Wg, Eg.
    rewrite none_below_iff in Wh, Wg. rewrite none_above_iff in Eh, Eg.
    split; [exact Wh|]. split; [exact Eh|]. split; [exact Wg|]. split; [exact Eg|].
    intros Hz Hv Hc.
    split; [|split; [|split]];
      [apply Wh | apply Eh | apply Wg | apply Eg];
      intros v Hin; destruct (Hv v Hin); lra.
Qed.

Lemma C5_empty_regions_are_skipped_witness :
  Loaded.find_logical_hardpoints (Loaded.mkObject [] None (mkVec3 0 0 0))
  = Loaded.TypeError
  /\ (exists h,
        Loaded.find_logical_hardpoints (Loaded.of_mesh fin_mesh) = Loaded.Returns h
        /\ weapons h = [] /\ engines h <> [])
  /\ (exists h,
        Loaded.find_logical_hardpoints (Loaded.of_mesh point_mesh) = Loaded.Returns h
        /\ weapons h = [] /\ engines h = []).
Proof.
  split; [|split].
  - apply (proj1 (C5_empty_regions_are_skipped (Loaded.mkObject [] None (mkVec3 0 0 0)))).
    reflexivity.
  - destruct (proj2 (C5_empty_regions_are_skipped (Loaded.of_mesh fin_mesh))
                (mkVec3 0 0 0) (mkVec3 30 40 10) eq_refl)
      as [h [g [Hh [_ [Hw [He _]]]]]].
    exists h. split; [exact Hh|]. split.
    + apply (proj2 Hw). intros v Hv. vm_compute in Hv.
      destruct Hv as [<- | [<- | [<- | [<- | [<- | []]]]]]; vm_compute; discriminate.
    + intro E.
      assert (Hin : In (mkVec3 0 0 10) (Loaded.obj_vertices (Loaded.of_mesh fin_mesh)))
        by (vm_compute; tauto).
      pose proof (proj1 He E _ Hin) as L. vm_compute in L. apply L. reflexivity.
  - destruct (proj2 (C5_empty_regions_are_skipped (Loaded.of_mesh point_mesh))
                (mkVec3 1 2 3) (mkVec3 1 2 3) eq_refl)
      as [h [g [Hh [_ [_ [_ [_ [_ Hz]]]]]]]].
    exists h. split; [exact Hh|].
    destruct Hz as [Wh [Eh _]].
    + reflexivity.
    + intros v Hv. vm_compute in Hv.
      destruct Hv as [<- | [<- | [<- | []]]]; split; vm_compute; discriminate.
    + split; vm_compute; discriminate.
    + split; assumption.
Defined.

(** C5 refuted as stated.  On [fin_mesh] no vertex lies ahead of the front
    threshold, yet the call returns: no weapon, one engine, no error.  On
    [point_mesh], of zero extent, both calls return empty lists instead of
    failing. *)
Lemma C5_no_error_is_raised :
  (front_region fin_mesh = []
   /\ exists e, Loaded.find_logical_hardpoints (Loaded.of_mesh fin_mesh)
                = Loaded.Returns (mkHardpoints [] [e]))
  /\ (Veq (fst (bounds point_mesh)) (snd (bounds point_mesh))
      /\ Loaded.find_logical_hardpoints (Loaded.of_mesh point_mesh)
         = Loaded.Returns (mkHardpoints [] [])
      /\ Loaded.analyze_generic_ship (Loaded.of_mesh point_mesh)
         = Loaded.Returns (mkHardpoints [] [])).
Proof.
  split.
  - split; [vm_compute; reflexivity|]. eexists. vm_compute. reflexivity.
  - split; [vm_compute; repeat split; reflexivity|].
    split; vm_compute; reflexivity.
Qed.

(** The centroid of [fin_mesh] is the one trimesh computes for its two
    triangles: their areas are 600 and 5 (the square of twice the area is
    1200^2 and 10^2), and the centroid is the average of the triangle
    centres with those weights. *)
Example fin_mesh_centroid :
  double_area_squared (mkVec3 0 0 0) (mkVec3 30 0 0) (mkVec3 0 40 0) == 1200 * 1200
  /\ double_area_squared (mkVec3 0 0 0) (mkVec3 0 1 0) (mkVec3 0 0 10) == 10 * 10
  /\ Veq (centroid fin_mesh)
         (weighted_center
            [ (600, triangle_center (mkVec3 0 0 0) (mkVec3 30 0 0) (mkVec3 0 40 0));
              (5, triangle_center (mkVec3 0 0 0) (mkVec3 0 1 0) (mkVec3 0 0 10)) ]).
Proof. vm_compute. repeat split. Qed.

End Failures.

(** * Further properties *)

(** ** Means of selections *)

Lemma mean1_lt (c : Q) (l : list Q) :
  l <> [] -> (forall x, In x l -> x < c) -> mean1 l < c.
Proof.
  intros Hne H. unfold mean1.
  apply Qlt_shift_div_r; [apply Qlen_pos, Hne|].
  apply Qsum_upper_strict.
  - intros x Hx. apply Qlt_le_weak, H, Hx.
  - destruct l as [|y r]; [congruence|]. exists y. split; [left; reflexivity|].
    apply H. left. reflexivity.
Qed.

Lemma mean1_gt (c : Q) (l : list Q) :
  l <> [] -> (forall x, In x l -> c < x) -> c < mean1 l.
Proof.
  intros Hne H. unfold mean1.
  apply Qlt_shift_div_l; [apply Qlen_pos, Hne|].
  apply Qsum_lower_strict.
  - intros x Hx. apply Qlt_le_weak, H, Hx.
  - destruct l as [|y r]; [congruence|]. exists y. split; [left; reflexivity|].
    apply H. left. reflexivity.
Qed.

Lemma nonempty_dec {A : Type} (l : list A) : {l = []} + {l <> []}.
Proof. destruct l; [left; reflexivity | right; discriminate]. Qed.

Lemma map_nonempty {A B : Type} (f : A -> B) (l : list A) : l <> [] -> map f l <> [].
Proof. destruct l; [congruence | discriminate]. Qed.

(** The mean of a non-empty selection [filter (c < .) l] along one axis
    stays on the selected side of the threshold. *)
Lemma mean_filter_gt (a : Axis) (c : Q) (l : list Vec3) :
  filter (fun v => Qgtb (coord a v) c) l <> [] ->
  c < coord a (mean (filter (fun v => Qgtb (coord a v) c) l)).
Proof.
  intro Hne. rewrite coord_mean. apply mean1_gt; [apply map_nonempty, Hne|].
  intros x Hx. apply in_map_iff in Hx. destruct Hx as [v [<- Hv]].
  apply filter_In in Hv. destruct Hv as [_ Hv]. apply Qgtb_gt in Hv. exact Hv.
Qed.

Lemma mean_filter_lt (a : Axis) (c : Q) (l : list Vec3) :
  filter (fun v => Qltb (coord a v) c) l <> [] ->
  coord a (mean (filter (fun v => Qltb (coord a v) c) l)) < c.
Proof.
  intro Hne. rewrite coord_mean. apply mean1_lt; [apply map_nonempty, Hne|].
  intros x Hx. apply in_map_iff in Hx. destruct Hx as [v [<- Hv]].
  apply filter_In in Hv. destruct Hv as [_ Hv]. apply Qltb_lt in Hv. exact Hv.
Qed.

(** The mean of a non-empty part of a selection is still on the selected
    side. *)
Lemma mean_sub_lt (a : Axis) (c : Q) (l sel : list Vec3) :
  sel <> [] -> incl sel (filter (fun v => Qltb (coord a v) c) l) ->
  coord a (mean sel) < c.
Proof.
  intros Hne Hincl. rewrite coord_mean. apply mean1_lt; [apply map_nonempty, Hne|].
  intros x Hx. apply in_map_iff in Hx. destruct Hx as [v [<- Hv]].
  apply Hincl, filter_In in Hv. destruct Hv as [_ Hv]. apply Qltb_lt in Hv. exact Hv.
Qed.

Lemma mean_sub_gt (a : Axis) (c : Q) (l sel : list Vec3) :
  sel <> [] -> incl sel (filter (fun v => Qgtb (coord a v) c) l) ->
  c < coord a (mean sel).
Proof.
  intros Hne Hincl. rewrite coord_mean. apply mean1_gt; [apply map_nonempty, Hne|].
  intros x Hx. apply in_map_iff in Hx. destruct Hx as [v [<- Hv]].
  apply Hincl, filter_In in Hv. destruct Hv as [_ Hv]. apply Qgtb_gt in Hv. exact Hv.
Qed.

(** ** [find_logical_hardpoints]: shape and placement of the result *)

Section LogicalPlacement.

Import LogicalHardpoints.

(** X1.  [find_logical_hardpoints] returns at most two weapons, all of type
    "cannon", and either no engine, one engine or three engines, never two;
    when there are engines exactly the first one is "main". *)
Theorem logical_hardpoints_shape (m : Mesh) :
  (List.length (weapons (find_logical_hardpoints m)) <= 2)%nat
  /\ Forall (fun w => w_type w = "cannon"%string) (weapons (find_logical_hardpoints m))
  /\ (engines (find_logical_hardpoints m) = []
      \/ exists rest,
          engines (find_logical_hardpoints m)
          = mkEngine (rear_center m) "main" 1 :: rest
          /\ (rest = [] \/ List.length rest = 2%nat)
          /\ Forall (fun e => e_type e = "secondary"%string /\ e_scale e = (7 # 10)) rest).
Proof.
  cbn [find_logical_hardpoints weapons engines]. unfold find_weapons, find_engines.
  split; [|split].
  - destruct (0 <? List.length (front_region m))%nat; [|cbn; lia].
    destruct ((0 <? List.length (front_left m)) && (0 <? List.length (front_right m)))%nat;
      cbn; lia.
  - destruct (0 <? List.length (front_region m))%nat; [|constructor].
    destruct ((0 <? List.length (front_left m)) && (0 <? List.length (front_right m)))%nat;
      repeat (apply Forall_cons; [reflexivity|]); apply Forall_nil.
  - destruct (0 <? List.length (rear_region m))%nat; [right | left; reflexivity].
    cbn [app]. eexists. split; [reflexivity|].
    destruct ((5 <? List.length (rear_left m)) && (5 <? List.length (rear_right m)))%nat.
    + split; [right; reflexivity|].
      repeat (apply Forall_cons; [split; reflexivity|]). apply Forall_nil.
    + split; [left; reflexivity | apply Forall_nil].
Qed.

Lemma weapons_fore_engines_aft (m : Mesh) :
  Forall (fun w => vz (w_position w) < center_z m - (rear_z m - front_z m) * (2 # 10))
         (weapons (find_logical_hardpoints m))
  /\ Forall (fun e => center_z m + (rear_z m - front_z m) * (2 # 10) < vz (e_position e))
            (engines (find_logical_hardpoints m)).
Proof.
  cbn [find_logical_hardpoints weapons engines]. unfold find_weapons, find_engines.
  split.
  - destruct (0 <? List.length (front_region m))%nat eqn:Ef; [|constructor].
    apply length_pos_ne in Ef.
    destruct ((0 <? List.length (front_left m)) && (0 <? List.length (front_right m)))%nat eqn:Es.
    + apply andb_true_iff in Es. destruct Es as [El Er].
      apply length_pos_ne in El. apply length_pos_ne in Er.
      apply Forall_cons; [|apply Forall_cons; [|apply Forall_nil]]; cbn [w_position].
      * apply (mean_sub_lt AxisZ _ (vertices m)); [exact Er | apply filter_incl_self].
      * apply (mean_sub_lt AxisZ _ (vertices m)); [exact El | apply filter_incl_self].
    + apply Forall_cons; [|apply Forall_nil]; cbn [w_position].
      apply (mean_sub_lt AxisZ _ (vertices m)); [exact Ef | apply incl_refl].
  - destruct (0 <? List.length (rear_region m))%nat eqn:Er; [|constructor].
    apply length_pos_ne in Er. apply Forall_app. split.
    + apply Forall_cons; [|apply Forall_nil]; cbn [e_position].
      apply (mean_sub_gt AxisZ _ (vertices m)); [exact Er | apply incl_refl].
    + destruct ((5 <? List.length (rear_left m)) && (5 <? List.length (rear_right m)))%nat eqn:Es;
        [|constructor].
      apply andb_true_iff in Es. destruct Es as [El Eg].
      assert (Hl : rear_left m <> []) by (destruct (rear_left m); [discriminate|discriminate]).
      assert (Hg : rear_right m <> []) by (destruct (rear_right m); [discriminate|discriminate]).
      apply Forall_cons; [|apply Forall_cons; [|apply Forall_nil]]; cbn [e_position].
      * apply (mean_sub_gt AxisZ _ (vertices m)); [exact Hg | apply filter_incl_self].
      * apply (mean_sub_gt AxisZ _ (vertices m)); [exact Hl | apply filter_incl_self].
Qed.

(** X2.  Every weapon returned by [find_logical_hardpoints] lies strictly
    ahead of the front threshold [center_z - 0.2 * (rear_z - front_z)] and
    every engine strictly behind the rear threshold
    [center_z + 0.2 * (rear_z - front_z)]. *)
Theorem logical_hardpoints_fore_and_aft (m : Mesh) :
  Forall (fun w => vz (w_position w) < center_z m - (rear_z m - front_z m) * (2 # 10))
         (weapons (find_logical_hardpoints m))
  /\ Forall (fun e => center_z m + (rear_z m - front_z m) * (2 # 10) < vz (e_position e))
            (engines (find_logical_hardpoints m)).
Proof. apply weapons_fore_engines_aft. Qed.

(** X3.  On a mesh whose bounds are in order ([front_z <= rear_z]) every
    weapon of [find_logical_hardpoints] lies strictly ahead of every engine
    along z. *)
Theorem logical_weapons_ahead_of_engines (m : Mesh) (w : Weapon) (e : Engine) :
  front_z m <= rear_z m ->
  In w (weapons (find_logical_hardpoints m)) ->
  In e (engines (find_logical_hardpoints m)) ->
  vz (w_position w) < vz (e_position e).
Proof.
  intros Hb Hw He.
  destruct (weapons_fore_engines_aft m) as [Fw Fe].
  rewrite Forall_forall in Fw, Fe.
  specialize (Fw w Hw). specialize (Fe e He). cbv beta in Fw, Fe.
  lra.
Qed.

Lemma logical_weapons_ahead_of_engines_witness :
  vz (mean (front_region aft_mesh)) < vz (mean (rear_region aft_mesh)).
Proof.
  apply (logical_weapons_ahead_of_engines aft_mesh
           (mkWeapon (mean (front_region aft_mesh)) "cannon")
           (mkEngine (mean (rear_region aft_mesh)) "main" 1)).
  - vm_compute. discriminate.
  - vm_compute. left. reflexivity.
  - vm_compute. left. reflexivity.
Defined.

(** X4.  When [find_logical_hardpoints] finds vertices on both sides of
    the front region, the first weapon lies more than 2 units to the right
    of the front region's mean x and the second more than 2 units to its
    left, so the two weapons are more than 4 units apart. *)
Theorem logical_weapons_apart (m : Mesh) :
  front_left m <> [] -> front_right m <> [] ->
  exists right left,
    weapons (find_logical_hardpoints m)
    = [ mkWeapon right "cannon"; mkWeapon left "cannon" ]
    /\ vx (front_center m) + 2 < vx right
    /\ vx left < vx (front_center m) - 2
    /\ 4 < vx right - vx left.
Proof.
  intros Hl Hr.
  assert (Hf : front_region m <> []).
  { intro E. apply Hl. unfold front_left. rewrite E. reflexivity. }
  cbn [find_logical_hardpoints weapons]. unfold find_weapons.
  rewrite (ne_length_pos _ Hf), (ne_length_pos _ Hl), (ne_length_pos _ Hr). cbn [andb].
  do 2 eexists. split; [reflexivity|].
  pose proof (mean_filter_gt AxisX (vx (front_center m) + 2) (front_region m) Hr) as Gr.
  pose proof (mean_filter_lt AxisX (vx (front_center m) - 2) (front_region m) Hl) as Gl.
  cbn [coord] in Gr, Gl. fold (front_right m) in Gr. fold (front_left m) in Gl.
  repeat split; [exact Gr | exact Gl | lra].
Qed.

Lemma logical_weapons_apart_witness :
  exists right left,
    weapons (find_logical_hardpoints twin_mesh)
    = [ mkWeapon right "cannon"; mkWeapon left "cannon" ]
    /\ vx (front_center twin_mesh) + 2 < vx right
    /\ vx left < vx (front_center twin_mesh) - 2
    /\ 4 < vx right - vx left.
Proof.
  apply (logical_weapons_apart twin_mesh); vm_compute; discriminate.
Defined.

(** X5.  When [find_logical_hardpoints] adds secondary engines, the first
    one lies more than 3 units to the right of the rear region's mean x and
    the second more than 3 units to its left, with the main engine at the
    mean between them. *)
Theorem logical_secondary_engines_apart (m : Mesh) :
  (5 < List.length (rear_left m))%nat -> (5 < List.length (rear_right m))%nat ->
  exists right left,
    engines (find_logical_hardpoints m)
    = [ mkEngine (rear_center m) "main" 1;
        mkEngine right "secondary" (7 # 10);
        mkEngine left "secondary" (7 # 10) ]
    /\ vx (rear_center m) + 3 < vx right
    /\ vx left < vx (rear_center m) - 3.
Proof.
  intros Hl Hr.
  assert (Nl : rear_left m <> []) by (destruct (rear_left m); [cbn in Hl; lia | discriminate]).
  assert (Nr : rear_right m <> []) by (destruct (rear_right m); [cbn in Hr; lia | discriminate]).
  assert (Hf : rear_region m <> []).
  { intro E. apply Nl. unfold rear_left. rewrite E. reflexivity. }
  cbn [find_logical_hardpoints engines]. unfold find_engines.
  apply Nat.ltb_lt in Hl. apply Nat.ltb_lt in Hr.
  rewrite (ne_length_pos _ Hf), Hl, Hr. cbn [andb app].
  do 2 eexists. split; [reflexivity|].
  pose proof (mean_filter_gt AxisX (vx (rear_center m) + 3) (rear_region m) Nr) as Gr.
  pose proof (mean_filter_lt AxisX (vx (rear_center m) - 3) (rear_region m) Nl) as Gl.
  cbn [coord] in Gr, Gl. fold (rear_right m) in Gr. fold (rear_left m) in Gl.
  split; [exact Gr | exact Gl].
Qed.

Lemma logical_secondary_engines_apart_witness :
  exists right left,
    engines (find_logical_hardpoints twin_mesh)
    = [ mkEngine (rear_center twin_mesh) "main" 1;
        mkEngine right "secondary" (7 # 10);
        mkEngine left "secondary" (7 # 10) ]
    /\ vx (rear_center twin_mesh) + 3 < vx right
    /\ vx left < vx (rear_center twin_mesh) - 3.
Proof.
  apply (logical_secondary_engines_apart twin_mesh); vm_compute; lia.
Defined.

End LogicalPlacement.

(** ** [analyze_starship_calypso]: failures and placement *)

Section CalypsoAnalysis.

Import IntelligentFinder.

Lemma left_weapon_none (vs : list Vec3) :
  left_weapon vs = None <-> front_section vs = [].
Proof.
  split.
  - intro H. destruct (nonempty_dec (front_section vs)) as [E | N]; [exact E|].
    destruct (local_weapons_bound vs N) as [lw [rw [El _]]]. congruence.
  - intro E. unfold left_weapon. rewrite E. reflexivity.
Qed.

Lemma right_weapon_none (vs : list Vec3) :
  right_weapon vs = None <-> front_section vs = [].
Proof.
  split.
  - intro H. destruct (nonempty_dec (front_section vs)) as [E | N]; [exact E|].
    destruct (local_weapons_bound vs N) as [lw [rw [_ Er]]]. congruence.
  - intro E. unfold right_weapon. rewrite E. reflexivity.
Qed.

Lemma main_engine_center_none (vs : list Vec3) :
  main_engine_center vs = None <-> rear_section vs = [].
Proof.
  unfold main_engine_center. destruct (rear_section vs); split; congruence.
Qed.

(** The outcome of a call, by cases on the three selections it depends on. *)
Lemma calypso_cases (vs : list Vec3) (bnds : Vec3 * Vec3) (center : Vec3) :
  match analyze_starship_calypso vs bnds center with
  | Raise ZeroDivisionError => left_side vs center = []
  | Raise UnboundLocalError =>
      left_side vs center <> [] /\ (front_section vs = [] \/ rear_section vs = [])
  | Ok _ =>
      left_side vs center <> [] /\ front_section vs <> [] /\ rear_section vs <> []
  end.
Proof.
  unfold analyze_starship_calypso, asymmetry_ratio.
  destruct (left_side vs center) as [|l0 lr] eqn:El; [reflexivity|]. cbn [bind].
  destruct (left_weapon vs) as [lw|] eqn:Elw; cbn [bind local].
  - assert (Hf : front_section vs <> []).
    { intro E. apply left_weapon_none in E. congruence. }
    destruct (local_weapons_bound vs Hf) as [lw' [rw [_ Erw]]]. rewrite Erw. cbn [bind local].
    destruct (main_engine_center vs) as [mc|] eqn:Emc; cbn [bind local].
    + split; [discriminate|]. split; [exact Hf|].
      intro E. apply main_engine_center_none in E. congruence.
    + split; [discriminate|]. right. apply main_engine_center_none, Emc.
  - split; [discriminate|]. left. apply left_weapon_none, Elw.
Qed.

(** X6.  [analyze_starship_calypso] raises [ZeroDivisionError] exactly when
    no vertex lies left of the centroid ([x < center[0]]); otherwise it
    raises [UnboundLocalError] exactly when the front section ([z < -35]) or
    the rear section ([z > 35]) is empty; and it returns exactly when all
    three selections are non-empty. *)
Theorem calypso_failure_modes (vs : list Vec3) (bnds : Vec3 * Vec3) (center : Vec3) :
  (analyze_starship_calypso vs bnds center = Raise ZeroDivisionError
   <-> left_side vs center = [])
  /\ (analyze_starship_calypso vs bnds center = Raise UnboundLocalError
      <-> left_side vs center <> []
          /\ (front_section vs = [] \/ rear_section vs = []))
  /\ ((exists h, analyze_starship_calypso vs bnds center = Ok h)
      <-> left_side vs center <> [] /\ front_section vs <> [] /\ rear_section vs <> []).
Proof.
  pose proof (calypso_cases vs bnds center) as H.
  destruct (analyze_starship_calypso vs bnds center) as [h | [|]].
  - destruct H as [Hl [Hf Hr]]. split; [|split].
    + split; [discriminate | intro E; contradiction].
    + split; [discriminate | intros [_ [E | E]]; contradiction].
    + split; [intros _; tauto | intros _; exists h; reflexivity].
  - split; [|split].
    + split; [intros _; exact H | reflexivity].
    + split; [discriminate | intros [N _]; contradiction].
    + split; [intros [h E]; discriminate | intros [N _]; contradiction].
  - destruct H as [Hl Hfr]. split; [|split].
    + split; [discriminate | intro E; contradiction].
    + split; [intros _; tauto | reflexivity].
    + split; [intros [h E]; discriminate | intros [_ [Nf Nr]]; destruct Hfr; contradiction].
Qed.

Lemma calypso_failure_modes_witness :
  analyze_starship_calypso [] calypso_bounds calypso_center = Raise ZeroDivisionError
  /\ analyze_starship_calypso [ mkVec3 (-5) 0 (-40) ] calypso_bounds calypso_center
     = Raise UnboundLocalError
  /\ exists h, analyze_starship_calypso calypso_vertices calypso_bounds calypso_center = Ok h.
Proof.
  split; [|split].
  - apply (proj1 (calypso_failure_modes [] calypso_bounds calypso_center)).
    vm_compute. reflexivity.
  - apply (proj1 (proj2 (calypso_failure_modes [ mkVec3 (-5) 0 (-40) ]
                           calypso_bounds calypso_center))).
    split; [vm_compute; discriminate | right; vm_compute; reflexivity].
  - apply (proj2 (proj2 (calypso_failure_modes calypso_vertices
                           calypso_bounds calypso_center))).
    repeat split; vm_compute; discriminate.
Defined.

Lemma extreme_min_spec (c : Axis) (a : list Vec3) (v : Vec3) :
  In v (extreme_min c a) -> In v a /\ coord c v == col_min c a.
Proof.
  intro H. apply filter_In in H. destruct H as [Hin Hv].
  split; [exact Hin | apply Qeq_bool_iff, Hv].
Qed.

Lemma extreme_max_spec (c : Axis) (a : list Vec3) (v : Vec3) :
  In v (extreme_max c a) -> In v a /\ coord c v == col_max c a.
Proof.
  intro H. apply filter_In in H. destruct H as [Hin Hv].
  split; [exact Hin | apply Qeq_bool_iff, Hv].
Qed.

Lemma hd_error_In {A : Type} (l : list A) (x : A) : hd_error l = Some x -> In x l.
Proof. destruct l; [discriminate|]. intro H. injection H as ->. left. reflexivity. Qed.

Lemma left_weapon_spec (vs : list Vec3) (lw : Vec3) :
  left_weapon vs = Some lw ->
  In lw (front_section vs)
  /\ (forall v, In v (front_section vs) -> vx lw <= vx v)
  /\ (forall v, In v (front_section vs) -> vx v == vx lw -> vz lw <= vz v).
Proof.
  unfold left_weapon. destruct (front_section vs) as [|u r] eqn:E; [discriminate|].
  intro H. apply hd_error_In in H.
  apply extreme_min_spec in H. destruct H as [H Hz].
  pose proof H as H'. apply extreme_min_spec in H'. destruct H' as [Hin Hx].
  cbn [coord] in Hx, Hz.
  split; [exact Hin|]. split.
  - intros v Hv. rewrite Hx. apply (col_min_le AxisX), Hv.
  - intros v Hv Hvx. rewrite Hz. apply (col_min_le AxisZ).
    apply filter_In. split; [exact Hv|]. apply Qeq_bool_iff. cbn [coord].
    rewrite Hvx. exact Hx.
Qed.

Lemma right_weapon_spec (vs : list Vec3) (rw : Vec3) :
  right_weapon vs = Some rw ->
  In rw (front_section vs)
  /\ (forall v, In v (front_section vs) -> vx v <= vx rw)
  /\ (forall v, In v (front_section vs) -> vx v == vx rw -> vz rw <= vz v).
Proof.
  unfold right_weapon. destruct (front_section vs) as [|u r] eqn:E; [discriminate|].
  intro H. apply hd_error_In in H.
  apply extreme_min_spec in H. destruct H as [H Hz].
  pose proof H as H'. apply extreme_max_spec in H'. destruct H' as [Hin Hx].
  cbn [coord] in Hx, Hz.
  split; [exact Hin|]. split.
  - intros v Hv. rewrite Hx. apply (col_max_ge AxisX), Hv.
  - intros v Hv Hvx. rewrite Hz. apply (col_min_le AxisZ).
    apply filter_In. split; [exact Hv|]. apply Qeq_bool_iff. cbn [coord].
    rewrite Hvx. exact Hx.
Qed.

(** X7.  When [analyze_starship_calypso] returns, its two weapons are
    actual vertices of the mesh, taken from the front section ([z < -35]):
    the left cannon is a vertex of least x there and the right cannon one of
    greatest x, each the most forward (least z) among the vertices sharing
    its x. *)
Theorem calypso_weapons_are_wing_tip_vertices (vs : list Vec3) (bnds : Vec3 * Vec3)
    (center : Vec3) (h : Hardpoints) :
  analyze_starship_calypso vs bnds center = Ok h ->
  exists lw rw,
    weapons h = [ mkWeapon lw "left_cannon"; mkWeapon rw "right_cannon" ]
    /\ In lw vs /\ In rw vs
    /\ vz lw < - (35) /\ vz rw < - (35)
    /\ (forall v, In v (front_section vs) -> vx lw <= vx v /\ vx v <= vx rw)
    /\ (forall v, In v (front_section vs) -> vx v == vx lw -> vz lw <= vz v)
    /\ (forall v, In v (front_section vs) -> vx v == vx rw -> vz rw <= vz v).
Proof.
  unfold analyze_starship_calypso. intro H.
  destruct (asymmetry_ratio vs center) as [q|e]; [|discriminate]. cbn [bind] in H.
  destruct (left_weapon vs) as [lw|] eqn:Elw; [|discriminate]. cbn [bind local] in H.
  destruct (right_weapon vs) as [rw|] eqn:Erw; [|discriminate]. cbn [bind local] in H.
  destruct (main_engine_center vs) as [mc|]; [|discriminate]. cbn [bind local] in H.
  injection H as <-. cbn [weapons].
  destruct (left_weapon_spec vs lw Elw) as [Il [Lx Lz]].
  destruct (right_weapon_spec vs rw Erw) as [Ir [Rx Rz]].
  exists lw, rw. split; [reflexivity|].
  pose proof Il as Fl. pose proof Ir as Fr.
  apply filter_In in Fl. apply filter_In in Fr.
  destruct Fl as [Vl Zl]. destruct Fr as [Vr Zr].
  apply Qltb_lt in Zl. apply Qltb_lt in Zr.
  repeat split; try assumption; [apply Lx | apply Rx]; assumption.
Qed.

Lemma calypso_weapons_are_wing_tip_vertices_witness :
  exists h lw rw,
    analyze_starship_calypso calypso_vertices calypso_bounds calypso_center = Ok h
    /\ weapons h = [ mkWeapon lw "left_cannon"; mkWeapon rw "right_cannon" ]
    /\ In lw calypso_vertices /\ In rw calypso_vertices.
Proof.
  eexists.
  destruct (calypso_weapons_are_wing_tip_vertices calypso_vertices calypso_bounds
              calypso_center _ eq_refl) as [lw [rw [Hw [Il [Ir _]]]]].
  exists lw, rw. split; [reflexivity|]. split; [exact Hw|]. split; assumption.
Defined.

End CalypsoAnalysis.

(** ** Secondary engines, the fighter and the generic ship *)

Section FinderPlacement.

Import IntelligentFinder Finder.

Lemma sky_predator_returns (vs : list Vec3) (bnds : Vec3 * Vec3) (center : Vec3) :
  vs <> [] ->
  analyze_sky_predator vs bnds center
  = Done (mkHardpoints [ mkWeapon (mean (front_point vs)) "nose_cannon" ]
                       [ mkEngine (mean (rear_point vs)) "main" 1 ]).
Proof. intro Hne. unfold analyze_sky_predator. destruct vs; [congruence | reflexivity]. Qed.

Lemma generic_ship_counts (vs : list Vec3) (bnds : Vec3 * Vec3) (center : Vec3) :
  (List.length (weapons (analyze_generic_ship vs bnds center)) <= 1)%nat
  /\ (List.length (engines (analyze_generic_ship vs bnds center)) <= 1)%nat.
Proof.
  unfold analyze_generic_ship. cbn [weapons engines].
  split; [destruct (0 <? _)%nat; cbn; lia|].
  destruct (0 <? List.length (rear_quarter vs bnds center))%nat; cbn; lia.
Qed.

(** X8.  When [analyze_starship_calypso] returns, it reports three engines:
    the main one and a left and a right secondary one of scale 0.6.  A
    secondary engine is the mean of the rear-section vertices on its side of
    the centroid, so it lies strictly on that side and behind z = 35; if no
    rear vertex lies on that side it is the origin (0, 0, 0) instead. *)
Theorem calypso_secondary_engines (vs : list Vec3) (bnds : Vec3 * Vec3)
    (center : Vec3) (h : Hardpoints) :
  analyze_starship_calypso vs bnds center = Ok h ->
  exists mc l r,
    engines h = [ mkEngine mc "main" 1;
                  mkEngine l "left_secondary" (6 # 10);
                  mkEngine r "right_secondary" (6 # 10) ]
    /\ (rear_left vs center <> [] ->
        l = mean (rear_left vs center) /\ vx l < vx center /\ 35 < vz l)
    /\ (rear_left vs center = [] -> l = mkVec3 0 0 0)
    /\ (rear_right vs center <> [] ->
        r = mean (rear_right vs center) /\ vx center < vx r /\ 35 < vz r)
    /\ (rear_right vs center = [] -> r = mkVec3 0 0 0).
Proof.
  unfold analyze_starship_calypso. intro H.
  destruct (asymmetry_ratio vs center) as [q|e]; [|discriminate]. cbn [bind] in H.
  destruct (left_weapon vs) as [lw|]; [|discriminate]. cbn [bind local] in H.
  destruct (right_weapon vs) as [rw|]; [|discriminate]. cbn [bind local] in H.
  destruct (main_engine_center vs) as [mc|] eqn:Emc; [|discriminate]. cbn [bind local] in H.
  injection H as <-. cbn [engines].
  assert (Hr : rear_section vs <> []).
  { intro E. apply main_engine_center_none in E. congruence. }
  do 3 eexists. split; [reflexivity|].
  unfold secondary_or_origin.
  destruct (rear_section vs) as [|r0 rr] eqn:Er; [congruence|].
  split; [|split; [|split]].
  - intro N. destruct (rear_left vs center) as [|a0 ar] eqn:El; [congruence|].
    rewrite <- El. assert (N' : rear_left vs center <> []) by (rewrite El; discriminate).
    split; [reflexivity|]. split.
    + apply (mean_filter_lt AxisX (vx center) (rear_section vs)). exact N'.
    + apply (mean_sub_gt AxisZ 35 vs); [exact N' | apply filter_incl_self].
  - intro E. rewrite E. reflexivity.
  - intro N. destruct (rear_right vs center) as [|a0 ar] eqn:El; [congruence|].
    rewrite <- El. assert (N' : rear_right vs center <> []) by (rewrite El; discriminate).
    split; [reflexivity|]. split.
    + apply (mean_filter_gt AxisX (vx center) (rear_section vs)). exact N'.
    + apply (mean_sub_gt AxisZ 35 vs); [exact N' | apply filter_incl_self].
  - intro E. rewrite E. reflexivity.
Qed.

Lemma calypso_secondary_engines_witness :
  exists h mc l r,
    analyze_starship_calypso calypso_vertices calypso_bounds calypso_center = Ok h
    /\ engines h = [ mkEngine mc "main" 1;
                     mkEngine l "left_secondary" (6 # 10);
                     mkEngine r "right_secondary" (6 # 10) ]
    /\ vx l < vx calypso_center /\ vx calypso_center < vx r.
Proof.
  eexists.
  destruct (calypso_secondary_engines calypso_vertices calypso_bounds
              calypso_center _ eq_refl) as [mc [l [r [He [Hl [_ [Hr _]]]]]]].
  exists mc, l, r. split; [reflexivity|]. split; [exact He|]. split.
  - apply Hl. vm_compute. discriminate.
  - apply Hr. vm_compute. discriminate.
Defined.

Lemma extreme_min_In (c : Axis) (a : list Vec3) (v : Vec3) :
  In v (extreme_min c a) <-> In v a /\ forall u, In u a -> coord c v <= coord c u.
Proof.
  split.
  - intro H. apply extreme_min_spec in H. destruct H as [Hin Hv]. split; [exact Hin|].
    intros u Hu. rewrite Hv. apply col_min_le, Hu.
  - intros [Hin Hmin]. apply filter_In. split; [exact Hin|]. apply Qeq_bool_iff.
    destruct (col_min_attained c a (In_nonempty _ _ Hin)) as [w [Hw Ew]].
    apply Qle_antisym; [rewrite <- Ew; apply Hmin, Hw | apply col_min_le, Hin].
Qed.

Lemma extreme_max_In (c : Axis) (a : list Vec3) (v : Vec3) :
  In v (extreme_max c a) <-> In v a /\ forall u, In u a -> coord c u <= coord c v.
Proof.
  split.
  - intro H. apply extreme_max_spec in H. destruct H as [Hin Hv]. split; [exact Hin|].
    intros u Hu. rewrite Hv. apply col_max_ge, Hu.
  - intros [Hin Hmax]. apply filter_In. split; [exact Hin|]. apply Qeq_bool_iff.
    destruct (col_max_attained c a (In_nonempty _ _ Hin)) as [w [Hw Ew]].
    apply Qle_antisym; [apply col_max_ge, Hin | rewrite <- Ew; apply Hmax, Hw].
Qed.

(** X9.  On a vertex array with at least one row [analyze_sky_predator]
    returns one "nose_cannon" and one "main" engine of scale 1.  The cannon
    is the mean of exactly the vertices whose z is least among all vertices,
    the engine the mean of exactly those whose z is greatest; neither
    selection is empty, and when a single vertex attains the extreme z the
    hardpoint is that vertex itself. *)
Theorem sky_predator_nose_and_tail (vs : list Vec3) (bnds : Vec3 * Vec3)
    (center : Vec3) :
  vs <> [] ->
  analyze_sky_predator vs bnds center
  = Done (mkHardpoints [ mkWeapon (mean (front_point vs)) "nose_cannon" ]
                       [ mkEngine (mean (rear_point vs)) "main" 1 ])
  /\ front_point vs <> [] /\ rear_point vs <> []
  /\ (forall v, In v (front_point vs)
                <-> In v vs /\ forall u, In u vs -> vz v <= vz u)
  /\ (forall v, In v (rear_point vs)
                <-> In v vs /\ forall u, In u vs -> vz u <= vz v)
  /\ (forall v, front_point vs = [v] -> Veq (mean (front_point vs)) v)
  /\ (forall v, rear_point vs = [v] -> Veq (mean (rear_point vs)) v).
Proof.
  intro Hne.
  split; [apply sky_predator_returns, Hne|].
  split; [apply extreme_min_nonempty, Hne|].
  split; [apply extreme_max_nonempty, Hne|].
  split; [intro v; apply (extreme_min_In AxisZ)|].
  split; [intro v; apply (extreme_max_In AxisZ)|].
  split; intros v E; rewrite E; apply mean_singleton.
Qed.

Lemma sky_predator_nose_and_tail_witness :
  analyze_sky_predator calypso_vertices calypso_bounds calypso_center
  = Done (mkHardpoints
            [ mkWeapon (mean (front_point calypso_vertices)) "nose_cannon" ]
            [ mkEngine (mean (rear_point calypso_vertices)) "main" 1 ])
  /\ Veq (mean (front_point calypso_vertices)) (mkVec3 (-5) 0 (-40))
  /\ Veq (mean (rear_point calypso_vertices)) (mkVec3 (-3) 4 50).
Proof.
  destruct (sky_predator_nose_and_tail calypso_vertices calypso_bounds calypso_center)
    as [E [_ [_ [_ [_ [Hn Ht]]]]]].
  - vm_compute. discriminate.
  - split; [exact E|]. split; [apply Hn | apply Ht]; reflexivity.
Defined.

(** X10.  [analyze_generic_ship] returns at most one weapon and at most one
    engine.  The weapon is the mean of the vertices strictly ahead of
    [center_z - 0.25 * (max_z - min_z)] and lies strictly ahead of that
    threshold itself; the engine is the mean of the vertices strictly behind
    [center_z + 0.25 * (max_z - min_z)] and lies strictly behind it. *)
Theorem generic_ship_placement (vs : list Vec3) (bnds : Vec3 * Vec3) (center : Vec3) :
  (List.length (weapons (analyze_generic_ship vs bnds center)) <= 1)%nat
  /\ (List.length (engines (analyze_generic_ship vs bnds center)) <= 1)%nat
  /\ Forall (fun w => w = mkWeapon (mean (front_quarter vs bnds center)) "forward_cannon"
                      /\ vz (w_position w)
                         < vz center - (vz (snd bnds) - vz (fst bnds)) * (25 # 100))
            (weapons (analyze_generic_ship vs bnds center))
  /\ Forall (fun e => e = mkEngine (mean (rear_quarter vs bnds center)) "main" 1
                      /\ vz center + (vz (snd bnds) - vz (fst bnds)) * (25 # 100)
                         < vz (e_position e))
            (engines (analyze_generic_ship vs bnds center)).
Proof.
  split; [apply generic_ship_counts|]. split; [apply generic_ship_counts|].
  unfold analyze_generic_ship. cbn [weapons engines].
  split.
  - destruct (0 <? List.length (front_quarter vs bnds center))%nat eqn:E; [|constructor].
    apply length_pos_ne in E. apply Forall_cons; [|apply Forall_nil]. cbn [w_position].
    split; [reflexivity|].
    apply (mean_sub_lt AxisZ _ vs); [exact E | apply incl_refl].
  - destruct (0 <? List.length (rear_quarter vs bnds center))%nat eqn:E; [|constructor].
    apply length_pos_ne in E. apply Forall_cons; [|apply Forall_nil]. cbn [e_position].
    split; [reflexivity|].
    apply (mean_sub_gt AxisZ _ vs); [exact E | apply incl_refl].
Qed.

(** X11.  The dispatch of [find_intelligent_hardpoints] can only fail for
    the model name 'Starship_Calypso': for any other name and a mesh with at
    least one vertex it returns a result with at most one weapon and at most
    one engine. *)
Theorem only_calypso_analysis_can_fail (m : Mesh) (model_name : string) :
  model_name <> "Starship_Calypso"%string ->
  vertices m <> [] ->
  exists h,
    find_intelligent_hardpoints m model_name = Done h
    /\ (List.length (weapons h) <= 1)%nat
    /\ (List.length (engines h) <= 1)%nat.
Proof.
  intros Hn Hv. unfold find_intelligent_hardpoints.
  apply String.eqb_neq in Hn. rewrite Hn.
  destruct (String.eqb model_name "Sky_Predator").
  - rewrite (sky_predator_returns (vertices m) (bounds m) (centroid m) Hv).
    eexists. split; [reflexivity|]. cbn. lia.
  - eexists. split; [reflexivity|].
    apply generic_ship_counts.
Qed.

Lemma only_calypso_analysis_can_fail_witness :
  exists h,
    find_intelligent_hardpoints aft_mesh "Sky_Predator" = Done h
    /\ (List.length (weapons h) <= 1)%nat
    /\ (List.length (engines h) <= 1)%nat.
Proof.
  apply (only_calypso_analysis_can_fail aft_mesh "Sky_Predator").
  - discriminate.
  - vm_compute. discriminate.
Defined.

End FinderPlacement.

(** ** Cross-sections of [analyze_model_geometry] *)

Section CrossSections.

Import GeometryReport.

Lemma col_min_le_max (a : Axis) (s : list Vec3) : s <> [] -> col_min a s <= col_max a s.
Proof.
  destruct s as [|v r]; [congruence|]. intros _.
  eapply Qle_trans; [apply (col_min_le a (v :: r) v) | apply (col_max_ge a (v :: r) v)];
    left; reflexivity.
Qed.

Lemma col_range_sub (a : Axis) (s vs : list Vec3) :
  s <> [] -> incl s vs ->
  col_max a s - col_min a s <= col_max a vs - col_min a vs.
Proof.
  intros Hne Hincl.
  destruct (col_max_attained a s Hne) as [u [Hu Eu]].
  destruct (col_min_attained a s Hne) as [w [Hw Ew]].
  rewrite <- Eu, <- Ew.
  pose proof (col_max_ge a vs u (Hincl u Hu)).
  pose proof (col_min_le a vs w (Hincl w Hw)). lra.
Qed.

Lemma length_linspace10 (a b : Q) : List.length (linspace10 a b) = 10%nat.
Proof. reflexivity. Qed.

Lemma cross_section_at_length (m : Mesh) (z : Q) :
  (List.length (cross_section_at m z) <= 1)%nat.
Proof. unfold cross_section_at. destruct (0 <? _)%nat; cbn; lia. Qed.

Lemma flat_map_length_le {A B : Type} (f : A -> list B) (l : list A) :
  (forall x, List.length (f x) <= 1)%nat ->
  (List.length (flat_map f l) <= List.length l)%nat.
Proof.
  intro H. induction l as [|x r IH]; [cbn; lia|].
  cbn [flat_map]. rewrite length_app. specialize (H x). cbn [List.length]. lia.
Qed.

(** X12.  [analyze_model_geometry] records at most ten cross-sections.  Each
    recorded cross-section sits at one of the ten sampled z positions, holds
    at least one vertex, and has x and y ranges that are non-negative and no
    larger than the x and y extent of the whole vertex set. *)
Theorem cross_sections_well_formed (m : Mesh) :
  (List.length (cross_sections m) <= 10)%nat
  /\ Forall (fun cs =>
               In (cs_z cs) (z_positions m)
               /\ (0 < cs_vertices cs)%nat
               /\ 0 <= cs_x_range cs
               /\ cs_x_range cs <= col_max AxisX (vertices m) - col_min AxisX (vertices m)
               /\ 0 <= cs_y_range cs
               /\ cs_y_range cs <= col_max AxisY (vertices m) - col_min AxisY (vertices m))
            (cross_sections m).
Proof.
  split.
  - unfold cross_sections.
    eapply Nat.le_trans; [apply flat_map_length_le, cross_section_at_length|].
    unfold z_positions. rewrite length_linspace10. lia.
  - apply Forall_forall. intros cs Hcs. unfold cross_sections in Hcs.
    apply in_flat_map in Hcs. destruct Hcs as [z [Hz Hcs]].
    unfold cross_section_at in Hcs.
    destruct (0 <? List.length (slice_vertices m z))%nat eqn:E; [|destruct Hcs].
    destruct Hcs as [<- | []]. cbn [cs_z cs_vertices cs_x_range cs_y_range].
    pose proof (length_pos_ne _ E) as N.
    split; [exact Hz|]. split; [apply Nat.ltb_lt, E|].
    pose proof (col_min_le_max AxisX _ N). pose proof (col_min_le_max AxisY _ N).
    pose proof (col_range_sub AxisX _ (vertices m) N (filter_incl_self _ _)).
    pose proof (col_range_sub AxisY _ (vertices m) N (filter_incl_self _ _)).
    repeat split; try assumption; lra.
Qed.

(** *** No vertex is counted twice *)

Lemma list_sum_step (x : nat) (l : list nat) : list_sum (x :: l) = (x + list_sum l)%nat.
Proof. reflexivity. Qed.

Lemma slices_total (P : Q -> Vec3 -> bool) (zs : list Q) (l : list Vec3) :
  (forall v, In v l -> (hits P zs v <= 1)%nat) ->
  (list_sum (map (fun z => List.length (filter (P z) l)) zs) <= List.length l)%nat.
Proof.
  induction l as [|v r IH]; intro H.
  - clear H. induction zs as [|z zr IHz]; [cbn; lia|].
    cbn [map filter List.length] in *. rewrite list_sum_step. lia.
  - assert (E : list_sum (map (fun z => List.length (filter (P z) (v :: r))) zs)
                = (hits P zs v + list_sum (map (fun z => List.length (filter (P z) r)) zs))%nat).
    { unfold hits. clear. induction zs as [|z zr IHz]; [reflexivity|].
      cbn [map]. rewrite !list_sum_step, IHz. cbn [filter].
      destruct (P z v); cbn [List.length]; lia. }
    rewrite E. cbn [List.length].
    pose proof (H v (or_introl eq_refl)).
    assert ((list_sum (map (fun z => List.length (filter (P z) r)) zs) <= List.length r)%nat)
      by (apply IH; intros u Hu; apply H; right; exact Hu).
    lia.
Qed.

Lemma near_spec (tol z : Q) (v : Vec3) :
  near tol z v = true -> z - tol < vz v /\ vz v < z + tol.
Proof.
  unfold near. intro H. apply Qltb_lt in H.
  apply Qabs_Qlt_condition in H. destruct H. split; lra.
Qed.

Lemma hits_none (tol : Q) (zs : list Q) (v : Vec3) :
  (forall z, In z zs -> near tol z v = false) -> hits (near tol) zs v = 0%nat.
Proof.
  unfold hits. induction zs as [|z zr IH]; intro H; [reflexivity|].
  cbn [map]. rewrite list_sum_step, (H z (or_introl eq_refl)).
  rewrite IH; [reflexivity|]. intros z' Hz'. apply H. right. exact Hz'.
Qed.

Lemma gapped_hits (tol : Q) (zs : list Q) (v : Vec3) :
  gapped (2 * tol) zs -> (hits (near tol) zs v <= 1)%nat.
Proof.
  induction zs as [|z zr IH]; intro G; [cbn; lia|].
  destruct G as [Gz Gr]. unfold hits. cbn [map]. rewrite list_sum_step.
  destruct (near tol z v) eqn:E.
  - apply near_spec in E. destruct E as [_ Hv].
    fold (hits (near tol) zr v). rewrite hits_none; [lia|].
    intros z' Hz'. specialize (Gz z' Hz').
    destruct (near tol z' v) eqn:E'; [|reflexivity].
    apply near_spec in E'. destruct E' as [Hv' _]. lra.
  - fold (hits (near tol) zr v). specialize (IH Gr). lia.
Qed.

Lemma linspace10_gapped (a b : Q) :
  a <= b -> gapped (2 * ((b - a) * (5 # 100))) (linspace10 a b).
Proof.
  intro Hab. unfold linspace10. cbn [map app gapped In].
  repeat split; intros z' Hz';
    repeat (destruct Hz' as [<- | Hz']; [unfold Qdiv, inject_Z; change (/ 9) with (1 # 9); lra|]);
    destruct Hz'.
Qed.

Lemma near_nonpositive (tol z : Q) (v : Vec3) : tol <= 0 -> near tol z v = false.
Proof.
  intro H. unfold near. apply Qltb_ge.
  eapply Qle_trans; [exact H | apply Qabs_nonneg].
Qed.

Lemma z_positions_hits (m : Mesh) (v : Vec3) :
  (hits (near (tolerance m)) (z_positions m) v <= 1)%nat.
Proof.
  destruct (Qlt_le_dec (vz (snd (bounds m))) (vz (fst (bounds m)))) as [Hlt | Hle].
  - rewrite hits_none; [lia|]. intros z _. apply near_nonpositive.
    unfold tolerance. lra.
  - apply gapped_hits. apply linspace10_gapped, Hle.
Qed.

Lemma cross_sections_total (m : Mesh) :
  list_sum (map cs_vertices (cross_sections m))
  = list_sum (map (fun z => List.length (slice_vertices m z)) (z_positions m)).
Proof.
  unfold cross_sections. induction (z_positions m) as [|z zr IH]; [reflexivity|].
  cbn [flat_map map]. rewrite map_app, list_sum_app, list_sum_step, IH.
  unfold cross_section_at at 1.
  destruct (slice_vertices m z) as [|u r]; cbn; lia.
Qed.

(** X13.  The cross-sections of [analyze_model_geometry] never count a
    vertex twice: the slices around the ten sampled z positions are pairwise
    disjoint, so the vertex counts of all recorded cross-sections add up to
    at most the number of vertices of the mesh. *)
Theorem cross_sections_count_each_vertex_once (m : Mesh) :
  (forall v, (hits (near (tolerance m)) (z_positions m) v <= 1)%nat)
  /\ (list_sum (map cs_vertices (cross_sections m)) <= List.length (vertices m))%nat.
Proof.
  split.
  - intro v. apply (z_positions_hits m v).
  - rewrite cross_sections_total.
    apply (slices_total (near (tolerance m))). intros v _. apply z_positions_hits.
Qed.

Lemma filter_incl_filter {A : Type} (f g : A -> bool) (l : list A) :
  (forall x, f x = true -> g x = true) -> incl (filter f l) (filter g l).
Proof.
  intros H x Hx. apply filter_In in Hx. destruct Hx as [Hin Hf].
  apply filter_In. split; [exact Hin | apply H, Hf].
Qed.

(** X14.  On a mesh whose bounds are in order ([min_z <= max_z]) the front
    and rear sections that [analyze_model_geometry] counts (beyond 0.3 of
    the length from the centroid) are contained in the front and rear
    regions that [find_logical_hardpoints] averages (beyond 0.2 of the
    length), so the printed section sizes never exceed the region sizes. *)
Theorem counted_sections_within_regions (m : Mesh) :
  vz (fst (bounds m)) <= vz (snd (bounds m)) ->
  incl (front_vertices m) (LogicalHardpoints.front_region m)
  /\ incl (rear_vertices m) (LogicalHardpoints.rear_region m)
  /\ (List.length (front_vertices m)
      <= List.length (LogicalHardpoints.front_region m))%nat
  /\ (List.length (rear_vertices m)
      <= List.length (LogicalHardpoints.rear_region m))%nat.
Proof.
  intro Hb.
  assert (If : incl (front_vertices m) (LogicalHardpoints.front_region m)).
  { apply filter_incl_filter. intros v Hv. apply Qltb_lt in Hv. apply Qltb_lt.
    unfold LogicalHardpoints.center_z, LogicalHardpoints.rear_z, LogicalHardpoints.front_z.
    lra. }
  assert (Ir : incl (rear_vertices m) (LogicalHardpoints.rear_region m)).
  { apply filter_incl_filter. intros v Hv. apply Qgtb_gt in Hv. apply Qgtb_gt.
    unfold LogicalHardpoints.center_z, LogicalHardpoints.rear_z, LogicalHardpoints.front_z.
    lra. }
  split; [exact If|]. split; [exact Ir|].
  assert (L : forall (f g : Vec3 -> bool) (l : list Vec3),
             (forall x, f x = true -> g x = true) ->
             (List.length (filter f l) <= List.length (filter g l))%nat).
  { intros f g l H. induction l as [|x r IH]; [cbn; lia|].
    cbn [filter]. destruct (f x) eqn:Ef.
    - rewrite (H x Ef). cbn [List.length]. lia.
    - destruct (g x); cbn [List.length]; lia. }
  split; apply L; intros v Hv.
  - apply Qltb_lt in Hv. apply Qltb_lt.
    unfold LogicalHardpoints.center_z, LogicalHardpoints.rear_z, LogicalHardpoints.front_z.
    lra.
  - apply Qgtb_gt in Hv. apply Qgtb_gt.
    unfold LogicalHardpoints.center_z, LogicalHardpoints.rear_z, LogicalHardpoints.front_z.
    lra.
Qed.

Lemma counted_sections_within_regions_witness :
  incl (front_vertices aft_mesh) (LogicalHardpoints.front_region aft_mesh)
  /\ incl (rear_vertices aft_mesh) (LogicalHardpoints.rear_region aft_mesh)
  /\ (List.length (front_vertices aft_mesh)
      <= List.length (LogicalHardpoints.front_region aft_mesh))%nat
  /\ (List.length (rear_vertices aft_mesh)
      <= List.length (LogicalHardpoints.rear_region aft_mesh))%nat.
Proof.
  apply (counted_sections_within_regions aft_mesh). vm_compute. discriminate.
Defined.

End CrossSections.

(** ** Engine exhausts of [analyze_based_on_description] *)

Section Exhausts.

Import SimpleAnalysis SimpleEngines.

Lemma cluster_mean_some (cluster : list Vec3) (p : Vec3) :
  cluster_mean cluster = Some p -> cluster <> [] /\ p = mean cluster.
Proof.
  unfold cluster_mean. destruct (0 <? List.length cluster)%nat eqn:E; [|discriminate].
  intro H. injection H as <-. split; [apply length_pos_ne, E | reflexivity].
Qed.

(** X15.  On a mesh whose x bounds are in order the vertices searched for
    engine exhausts (the rearmost 5 percent of the x range) all belong to
    the aft section searched for wings (the rearmost 25 percent). *)
Theorem exhaust_vertices_are_aft (m : Mesh) :
  vx (fst (bounds m)) <= vx (snd (bounds m)) ->
  incl (rear_vertices m) (aft_vertices m).
Proof.
  intro Hb. apply filter_incl_filter. intros v Hv.
  apply Qgtb_gt in Hv. apply Qgtb_gt.
  unfold rear_threshold, aft_threshold, dimensions in *. cbn [vx] in *. lra.
Qed.

Lemma exhaust_vertices_are_aft_witness :
  incl (rear_vertices wing_mesh) (aft_vertices wing_mesh).
Proof.
  apply (exhaust_vertices_are_aft wing_mesh). vm_compute. discriminate.
Defined.

Lemma mean_abs_lt (c : Q) (sel : list Vec3) :
  sel <> [] -> (forall v, In v sel -> Qabs (vz v) < c) -> Qabs (vz (mean sel)) < c.
Proof.
  intros Hne H. apply Qabs_Qlt_condition.
  change (vz (mean sel)) with (coord AxisZ (mean sel)). rewrite coord_mean. split.
  - apply mean1_gt; [apply map_nonempty, Hne|].
    intros x Hx. apply in_map_iff in Hx. destruct Hx as [v [<- Hv]].
    apply H, Qabs_Qlt_condition in Hv. tauto.
  - apply mean1_lt; [apply map_nonempty, Hne|].
    intros x Hx. apply in_map_iff in Hx. destruct Hx as [v [<- Hv]].
    apply H, Qabs_Qlt_condition in Hv. tauto.
Qed.

(** X16.  The engine report of [analyze_based_on_description].  Nothing
    is reported unless more than 100 vertices lie behind the rear threshold
    (the rearmost 5 percent of the x range).  With more than 100, each of
    the three clusters of those vertices (|z| < 20, z < -20, z > 20) is
    reported as the [np.mean] of its vertices when it has any and is left
    out otherwise.  Whatever is reported lies behind the rear threshold;
    the main engine has |z| < 20, the left engine z < -20 and the right
    engine z > 20, so no two reported engines coincide. *)
Theorem engine_report_placement (m : Mesh) :
  let threshold :=
    vx (snd (bounds m)) - (vx (snd (bounds m)) - vx (fst (bounds m))) * (5 # 100) in
  let rear := filter (fun v => Qgtb (vx v) threshold) (vertices m) in
  let center := filter (fun v => Qltb (Qabs (vz v)) 20) rear in
  let left := filter (fun v => Qltb (vz v) (- (20))) rear in
  let right := filter (fun v => Qgtb (vz v) 20) rear in
  ((List.length rear <= 100)%nat ->
   engine_analysis m = mkEngineReport None None None)
  /\ ((100 < List.length rear)%nat ->
      main_engine (engine_analysis m)
      = match center with [] => None | _ :: _ => Some (mean center) end
      /\ left_engine (engine_analysis m)
         = match left with [] => None | _ :: _ => Some (mean left) end
      /\ right_engine (engine_analysis m)
         = match right with [] => None | _ :: _ => Some (mean right) end)
  /\ (forall p, main_engine (engine_analysis m) = Some p ->
        Qabs (vz p) < 20 /\ threshold < vx p)
  /\ (forall p, left_engine (engine_analysis m) = Some p ->
        vz p < - (20) /\ threshold < vx p)
  /\ (forall p, right_engine (engine_analysis m) = Some p ->
        20 < vz p /\ threshold < vx p).
Proof.
  intros threshold rear center left right.
  change threshold with (rear_threshold m).
  change rear with (rear_vertices m) in *.
  change center with (center_engines m).
  change left with (left_engines m).
  change right with (right_engines m).
  clear threshold rear center left right.
  unfold engine_analysis. split; [|split; [|split; [|split]]].
  - intro H. apply Nat.ltb_ge in H. rewrite H. reflexivity.
  - intro H. apply Nat.ltb_lt in H. rewrite H.
    cbn [main_engine left_engine right_engine]. unfold cluster_mean.
    split; [|split].
    + destruct (center_engines m); reflexivity.
    + destruct (left_engines m); reflexivity.
    + destruct (right_engines m); reflexivity.
  - intros p. destruct (100 <? List.length (rear_vertices m))%nat; [|discriminate].
    cbn [main_engine]. intro H. apply cluster_mean_some in H. destruct H as [N ->].
    split.
    + apply mean_abs_lt; [exact N|]. intros v Hv. apply filter_In in Hv.
      destruct Hv as [_ Hv]. apply Qltb_lt in Hv. exact Hv.
    + apply (mean_sub_gt AxisX _ (vertices m)); [exact N | apply filter_incl_self].
  - intros p. destruct (100 <? List.length (rear_vertices m))%nat; [|discriminate].
    cbn [left_engine]. intro H. apply cluster_mean_some in H. destruct H as [N ->].
    split.
    + apply (mean_filter_lt AxisZ (- (20)) (rear_vertices m)). exact N.
    + apply (mean_sub_gt AxisX _ (vertices m)); [exact N | apply filter_incl_self].
  - intros p. destruct (100 <? List.length (rear_vertices m))%nat; [|discriminate].
    cbn [right_engine]. intro H. apply cluster_mean_some in H. destruct H as [N ->].
    split.
    + apply (mean_filter_gt AxisZ 20 (rear_vertices m)). exact N.
    + apply (mean_sub_gt AxisX _ (vertices m)); [exact N | apply filter_incl_self].
Qed.

Lemma engine_report_placement_witness :
  engine_analysis wing_mesh = mkEngineReport None None None
  /\ exists p, main_engine (engine_analysis exhaust_mesh) = Some p
               /\ Qabs (vz p) < 20 /\ 95 < vx p.
Proof.
  split.
  - apply (proj1 (engine_report_placement wing_mesh)). vm_compute. lia.
  - exists (mean (center_engines exhaust_mesh)).
    assert (E : main_engine (engine_analysis exhaust_mesh)
                = Some (mean (center_engines exhaust_mesh)))
      by (vm_compute; reflexivity).
    split; [exact E|].
    destruct (proj1 (proj2 (proj2 (engine_report_placement exhaust_mesh))) _ E) as [A B].
    split; [exact A|].
    assert (T : 95 == 100 - (100 - 0) * (5 # 100)) by (vm_compute; reflexivity).
    rewrite T. exact B.
Defined.

End Exhausts.

(** ** Wing weapons of [analyze_based_on_description] *)

Section WingPlacement.

Import SimpleAnalysis.

(** X22.  Whatever percentile routine is used, [analyze_based_on_description]
    reports at most two wing weapons.  Each lies less than 10 units ahead
    of the aft threshold along x, and its z is either below the 30th
    percentile of the aft z coordinates (left wing) or above the 70th
    (right wing). *)
Theorem wing_weapons_placement (percentile : list Q -> Q -> Q) (m : Mesh) :
  (List.length (wing_weapons percentile m) <= 2)%nat
  /\ Forall (fun w =>
               aft_threshold m - 10 < vx w
               /\ (vz w < percentile (map vz (aft_vertices m)) 30
                   \/ percentile (map vz (aft_vertices m)) 70 < vz w))
            (wing_weapons percentile m).
Proof.
  unfold wing_weapons. split.
  - destruct (0 <? List.length (aft_vertices m))%nat; [|cbn; lia].
    rewrite length_app.
    destruct (0 <? List.length (left_wing_verts percentile m))%nat;
      destruct (0 <? List.length (right_wing_verts percentile m))%nat; cbn; lia.
  - destruct (0 <? List.length (aft_vertices m))%nat; [|constructor].
    apply Forall_app. split.
    + destruct (0 <? List.length (left_wing_verts percentile m))%nat eqn:E; [|constructor].
      apply length_pos_ne in E. apply Forall_cons; [|apply Forall_nil].
      cbn [under_wing vx vz]. split.
      * pose proof (mean_sub_gt AxisX (aft_threshold m) (vertices m)
                      (left_wing_verts percentile m) E (filter_incl_self _ _)) as G.
        cbn [coord] in G. lra.
      * left. apply (mean_filter_lt AxisZ _ (aft_vertices m)). exact E.
    + destruct (0 <? List.length (right_wing_verts percentile m))%nat eqn:E; [|constructor].
      apply length_pos_ne in E. apply Forall_cons; [|apply Forall_nil].
      cbn [under_wing vx vz]. split.
      * pose proof (mean_sub_gt AxisX (aft_threshold m) (vertices m)
                      (right_wing_verts percentile m) E (filter_incl_self _ _)) as G.
        cbn [coord] in G. lra.
      * right. apply (mean_filter_gt AxisZ _ (aft_vertices m)). exact E.
Qed.

End WingPlacement.
